(** * The Hive integration ([homeassistant/components/hive/__init__.py])

    A shallow embedding of the module in a small model of the Python
    object store: dictionaries and lists are objects of a heap and are
    referred to by reference, so that aliasing and in-place updates are
    visible; functions of the module are computations in a state and
    exception monad; calls to the host framework and to the vendor
    library are fields of an interface class. *)

From Stdlib Require Import ZArith String List.
From stdpp Require Import base option list strings gmap.

Open Scope string_scope.
Open Scope list_scope.

(** ** Values and objects *)

(** Members of the host's enumerations used by the metadata table.  Their
    declarations live in the host framework; only their identity matters
    here. *)
Inductive BinarySensorDeviceClass :=
  OPENING | MOTION | CONNECTIVITY | SMOKE | SOUND.
Inductive SensorDeviceClass := TEMPERATURE | BATTERY | ENERGY.
Inductive SensorStateClass := MEASUREMENT.
(** The two unit constants imported from [homeassistant.const]. *)
Inductive unit_const := TEMP_CELSIUS | POWER_WATT.

Definition loc := nat.

Inductive value :=
  | VNone
  | VBool (b : bool)
  | VInt (n : Z)
  | VStr (s : string)
  | VBinarySensorDeviceClass (c : BinarySensorDeviceClass)
  | VSensorDeviceClass (c : SensorDeviceClass)
  | VSensorStateClass (c : SensorStateClass)
  | VConst (u : unit_const)
  | VRef (l : loc).

Inductive obj :=
  | ODict (d : gmap string value)
  | OList (l : list value)
  | OHive (websession : value)
  | OOpaque (tag : string).

Arguments VInt n%_Z.

#[global] Instance BinarySensorDeviceClass_eq_dec : EqDecision BinarySensorDeviceClass.
Proof. solve_decision. Defined.
#[global] Instance SensorDeviceClass_eq_dec : EqDecision SensorDeviceClass.
Proof. solve_decision. Defined.
#[global] Instance SensorStateClass_eq_dec : EqDecision SensorStateClass.
Proof. solve_decision. Defined.
#[global] Instance unit_const_eq_dec : EqDecision unit_const.
Proof. solve_decision. Defined.
#[global] Instance value_eq_dec : EqDecision value.
Proof. solve_decision. Defined.

(** ** Exceptions, events and the state *)

Inductive exn :=
  | KeyError (key : value)
  | TypeError
  | AttributeError
  | NameError (name : string)
  | HTTPException (reason : string)
  | HiveReauthRequired
  | ConfigEntryNotReady (cause : exn)
  | ConfigEntryAuthFailed (cause : exn)
  | OtherException (cls : string).

Inductive task :=
  | FlowInit (domain : string) (context data : value)
  | ForwardEntrySetup (entry_id ha_type : string).

Inductive event :=
  | LogError (msg : string) (error : exn)
  | CreateTask (t : task)
  | DispatcherSend (signal : string).

Record state := {
  heap : list obj;
  module_globals : gmap string value;
  trace : list event
}.

Inductive result (A : Type) :=
  | Ok (a : A)
  | Raise (e : exn).
Arguments Ok {A} a.
Arguments Raise {A} e.

Definition M (A : Type) : Type := state → result A * state.

#[global] Instance M_ret : MRet M := λ A a s, (Ok a, s).
#[global] Instance M_bind : MBind M := λ A B f m s,
  match m s with
  | (Ok a, s') => f a s'
  | (Raise e, s') => (Raise e, s')
  end.

Definition raise {A} (e : exn) : M A := λ s, (Raise e, s).

(** [try: m except h]: run [m]; when it raises [e] and the handler has a
    clause for [e], run that clause, otherwise let [e] propagate. *)
Definition try_except {A} (m : M A) (h : exn → option (M A)) : M A := λ s,
  match m s with
  | (Ok a, s') => (Ok a, s')
  | (Raise e, s') =>
      match h e with
      | Some k => k s'
      | None => (Raise e, s')
      end
  end.

Definition emit (e : event) : M unit := λ s,
  (Ok tt, {| heap := heap s; module_globals := module_globals s;
             trace := trace s ++ [e] |}).

(** ** Object store primitives *)

Definition obj_at (h : list obj) (v : value) : option obj :=
  match v with
  | VRef l => h !! l
  | _ => None
  end.

Definition alloc (o : obj) : M value := λ s,
  (Ok (VRef (length (heap s))),
   {| heap := heap s ++ [o]; module_globals := module_globals s;
      trace := trace s |}).

Definition store (l : loc) (o : obj) : M unit := λ s,
  (Ok tt, {| heap := <[l := o]> (heap s); module_globals := module_globals s;
             trace := trace s |}).

(** Dictionaries and lists are unhashable; every other value can be a key. *)
Definition hashable (h : list obj) (v : value) : bool :=
  match obj_at h v with
  | Some (ODict _) | Some (OList _) => false
  | _ => true
  end.

Definition truthy (h : list obj) (v : value) : bool :=
  match v with
  | VNone => false
  | VBool b => b
  | VInt n => negb (n =? 0)%Z
  | VStr s => negb (bool_decide (s = ""))
  | VRef l =>
      match h !! l with
      | Some (ODict d) => negb (bool_decide (d = ∅))
      | Some (OList xs) => negb (bool_decide (xs = []))
      | _ => true
      end
  | _ => true
  end.

(** Lookup of an arbitrary key in a dictionary whose keys are strings: an
    unhashable key is a [TypeError], a hashable key that is not a string
    is not found. *)
Definition dict_find (h : list obj) (d : gmap string value) (k : value)
  : result (option value) :=
  if hashable h k then
    match k with
    | VStr s => Ok (d !! s)
    | _ => Ok None
    end
  else Raise TypeError.

(** [c[k]].  Only dictionaries are subscripted by this module; subscripting
    another object raises [TypeError]. *)
Definition getitem (c k : value) : M value := λ s,
  match obj_at (heap s) c with
  | Some (ODict d) =>
      match dict_find (heap s) d k with
      | Ok (Some v) => (Ok v, s)
      | Ok None => (Raise (KeyError k), s)
      | Raise e => (Raise e, s)
      end
  | _ => (Raise TypeError, s)
  end.

(** [c.get(k, default)]: only dictionaries have the method. *)
Definition get (c k default : value) : M value := λ s,
  match obj_at (heap s) c with
  | Some (ODict d) =>
      match dict_find (heap s) d k with
      | Ok (Some v) => (Ok v, s)
      | Ok None => (Ok default, s)
      | Raise e => (Raise e, s)
      end
  | _ => (Raise AttributeError, s)
  end.

(** [c[k] = v] for a string key. *)
Definition setitem (c : value) (k : string) (v : value) : M unit := λ s,
  match c, obj_at (heap s) c with
  | VRef l, Some (ODict d) => store l (ODict (<[k := v]> d)) s
  | _, _ => (Raise TypeError, s)
  end.

(** [c.pop(k)] without a default, for a string key. *)
Definition pop (c : value) (k : string) : M value := λ s,
  match c, obj_at (heap s) c with
  | VRef l, Some (ODict d) =>
      match d !! k with
      | Some v => (v' ← store l (ODict (delete k d)); mret v) s
      | None => (Raise (KeyError (VStr k)), s)
      end
  | _, Some (OList _) => (Raise TypeError, s)
  | _, _ => (Raise AttributeError, s)
  end.

(** [k in c] for a string key and a dictionary. *)
Definition contains (c : value) (k : string) : M bool := λ s,
  match obj_at (heap s) c with
  | Some (ODict d) => (Ok (bool_decide (is_Some (d !! k))), s)
  | _ => (Raise TypeError, s)
  end.

(** [dict(c)]: a new dictionary with the entries of the mapping [c]. *)
Definition dict_copy (c : value) : M value := λ s,
  match obj_at (heap s) c with
  | Some (ODict d) => alloc (ODict d) s
  | _ => (Raise TypeError, s)
  end.

(** [c.update(other)] for two dictionaries: entries of [other] win. *)
Definition update (c other : value) : M unit := λ s,
  match c, obj_at (heap s) c, obj_at (heap s) other with
  | VRef l, Some (ODict d), Some (ODict d') => store l (ODict (d' ∪ d)) s
  | VRef l, Some (ODict _), _ => (Raise TypeError, s)
  | _, _, _ => (Raise AttributeError, s)
  end.

(** Read of a module-level name. *)
Definition load_global (name : string) : M value := λ s,
  match module_globals s !! name with
  | Some v => (Ok v, s)
  | None => (Raise (NameError name), s)
  end.

Definition store_global (name : string) (v : value) : M unit := λ s,
  (Ok tt, {| heap := heap s;
             module_globals := <[name := v]> (module_globals s);
             trace := trace s |}).

Definition truth (v : value) : M bool := λ s, (Ok (truthy (heap s) v), s).

(** A dictionary display [{k1: v1, k2: v2, ...}]: entries are inserted
    from left to right, a later entry replaces an earlier one. *)
Definition dict_display (items : list (string * value)) : gmap string value :=
  foldl (λ d kv, <[kv.1 := kv.2]> d) ∅ items.

(** ** The host and the vendor library *)

Record HomeAssistant := { hass_data : value }.

Record ConfigEntry := {
  entry_id : string;
  entry_data : value;
  entry_options : value
}.

(** What the module imports and calls but does not define: the constants
    of [.const] and [homeassistant.const], string formatting of a value
    inside an f-string, and the calls into the host framework and the
    vendor client.  A call may depend on the whole state; the vendor's
    session bootstrap may allocate objects (the devices it returns) and
    either returns or raises. *)
Class Host := {
  DOMAIN : string;
  PLATFORMS : list string;
  PLATFORM_LOOKUP : list (string * string);
  CONF_PASSWORD : string;
  CONF_SCAN_INTERVAL : string;
  CONF_USERNAME : string;
  SOURCE_IMPORT : string;
  format_value : list obj → value → string;
  format_value_str : ∀ h s, format_value h (VStr s) = s;
  async_get_clientsession : state → HomeAssistant → value;
  startSession : state → value → value → list obj * result value;
  async_unload_platforms : state → ConfigEntry → list string → result bool;
  async_entries : state → string → list ConfigEntry
}.

(** ** The module *)

Definition DEVICETYPE : list (string * list (string * value)) := [
  ("contactsensor", [("device_class", VBinarySensorDeviceClass OPENING)]);
  ("motionsensor", [("device_class", VBinarySensorDeviceClass MOTION)]);
  ("Connectivity", [("device_class", VBinarySensorDeviceClass CONNECTIVITY)]);
  ("SMOKE_CO", [("device_class", VBinarySensorDeviceClass SMOKE)]);
  ("DOG_BARK", [("device_class", VBinarySensorDeviceClass SOUND)]);
  ("GLASS_BREAK", [("device_class", VBinarySensorDeviceClass SOUND)]);
  ("Heating_Current_Temperature",
     [("device_class", VSensorDeviceClass TEMPERATURE);
      ("state_class", VSensorStateClass MEASUREMENT);
      ("unit", VConst TEMP_CELSIUS)]);
  ("Heating_Target_Temperature",
     [("device_class", VSensorDeviceClass TEMPERATURE);
      ("state_class", VSensorStateClass MEASUREMENT);
      ("unit", VConst TEMP_CELSIUS)]);
  ("Heating_State", [("icon", VStr "mdi:radiator")]);
  ("Heating_Mode", [("icon", VStr "mdi:radiator")]);
  ("Heating_Boost", [("icon", VStr "mdi:radiator")]);
  ("Hotwater_State", [("icon", VStr "mdi:water-pump")]);
  ("Hotwater_Mode", [("icon", VStr "mdi:water-pump")]);
  ("Hotwater_Boost", [("icon", VStr "mdi:water-pump")]);
  ("Heating_Heat_On_Demand", []);
  ("Mode", [("icon", VStr "mdi:eye")]);
  ("Availability", [("icon", VStr "mdi:check-circle")]);
  ("warmwhitelight", []);
  ("tuneablelight", []);
  ("colourtunablelight", []);
  ("activeplug", []);
  ("trvcontrol", []);
  ("heating", []);
  ("siren", []);
  ("Battery",
     [("device_class", VSensorDeviceClass BATTERY);
      ("state_class", VSensorStateClass MEASUREMENT)]);
  ("Power",
     [("device_class", VSensorDeviceClass ENERGY);
      ("state_class", VSensorStateClass MEASUREMENT);
      ("unit", VConst POWER_WATT)])
].

(** Evaluation of the nested display: each record is allocated in turn. *)
Fixpoint alloc_records (items : list (string * list (string * value)))
  : M (list (string * value)) :=
  match items with
  | [] => mret []
  | (k, r) :: rest =>
      v ← alloc (ODict (dict_display r));
      vs ← alloc_records rest;
      mret ((k, v) :: vs)
  end.

(** Execution of the module body: the assignment to [DEVICETYPE]. *)
Definition module_load : M unit :=
  kvs ← alloc_records DEVICETYPE;
  t ← alloc (ODict (dict_display kvs));
  store_global "DEVICETYPE" t.

Section Module.
Context `{Host}.

Definition call_get_clientsession (hass : HomeAssistant) : M value := λ s,
  (Ok (async_get_clientsession s hass), s).

Definition call_startSession (hive hive_config : value) : M value := λ s,
  let '(new, r) := startSession s hive hive_config in
  (r, {| heap := heap s ++ new; module_globals := module_globals s;
         trace := trace s |}).

Definition call_async_unload_platforms (entry : ConfigEntry)
    (platforms : list string) : M bool := λ s,
  (async_unload_platforms s entry platforms, s).

Definition call_async_entries (domain : string) : M (list ConfigEntry) := λ s,
  (Ok (async_entries s domain), s).

Definition async_setup (hass : HomeAssistant) (config : value) : M bool :=
  d ← alloc (ODict ∅);
  setitem (hass_data hass) DOMAIN d;;
  present ← contains config DOMAIN;
  if negb present then mret true else
  conf ← getitem config (VStr DOMAIN);
  entries ← call_async_entries DOMAIN;
  match entries : list ConfigEntry with
  | [] =>
      context ← alloc (ODict (dict_display [("source", VStr SOURCE_IMPORT)]));
      username ← getitem conf (VStr CONF_USERNAME);
      password ← getitem conf (VStr CONF_PASSWORD);
      data ← alloc (ODict (dict_display [(CONF_USERNAME, username);
                                          (CONF_PASSWORD, password)]));
      emit (CreateTask (FlowInit DOMAIN context data));;
      mret true
  | _ :: _ => mret true
  end.

(** The [except] clauses of [async_setup_entry]. *)
Definition setup_entry_handler (error : exn) : option (M value) :=
  match error with
  | HTTPException _ =>
      Some (emit (LogError "Could not connect to the internet: %s" error);;
            raise (ConfigEntryNotReady error))
  | HiveReauthRequired => Some (raise (ConfigEntryAuthFailed error))
  | _ => None
  end.

Fixpoint forward_platforms (entry : ConfigEntry) (devices : value)
    (items : list (string * string)) : M unit :=
  match items with
  | [] => mret tt
  | (ha_type, hive_type) :: rest =>
      device_list ← get devices (VStr hive_type) VNone;
      b ← truth device_list;
      (if b : bool
       then emit (CreateTask (ForwardEntrySetup (entry_id entry) ha_type))
       else mret tt);;
      forward_platforms entry devices rest
  end.

Definition async_setup_entry (hass : HomeAssistant) (entry : ConfigEntry)
  : M bool :=
  websession ← call_get_clientsession hass;
  hive ← alloc (OHive websession);
  hive_config ← dict_copy (entry_data entry);
  empty ← alloc (ODict ∅);
  setitem hive_config "options" empty;;
  options ← getitem hive_config (VStr "options");
  entry_opts ← dict_copy (entry_options entry);
  interval ← get entry_opts (VStr CONF_SCAN_INTERVAL) (VInt 120);
  arg ← alloc (ODict (dict_display [(CONF_SCAN_INTERVAL, interval)]));
  update options arg;;
  sessions ← getitem (hass_data hass) (VStr DOMAIN);
  setitem sessions (entry_id entry) hive;;
  devices ← try_except (call_startSession hive hive_config)
                       setup_entry_handler;
  forward_platforms entry devices PLATFORM_LOOKUP;;
  mret true.

Definition async_unload_entry (hass : HomeAssistant) (entry : ConfigEntry)
  : M bool :=
  unload_ok ← call_async_unload_platforms entry PLATFORMS;
  (if unload_ok : bool then
     sessions ← getitem (hass_data hass) (VStr DOMAIN);
     pop sessions (entry_id entry);;
     mret tt
   else mret tt);;
  mret unload_ok.

(** The decorator: [func] is the wrapped coroutine function, applied to
    the receiver and the arguments of the call. *)
Definition refresh_system {Self Args A : Type} (func : Self → Args → M A)
  : Self → Args → M unit :=
  λ self args,
    func self args;;
    emit (DispatcherSend DOMAIN).

(** [HiveEntity]: the attributes assigned by [__init__].  [DeviceInfo] is
    the host's typed dictionary; its [identifiers] field is a set of
    pairs, here the list of its elements. *)
Record DeviceInfo := {
  identifiers : list (string * value);
  model : value;
  manufacturer : value;
  name : value;
  sw_version : value;
  via_device : string * value
}.

Record HiveEntity := {
  hive : value;
  device : value;
  _attr_name : value;
  _attr_unique_id : string;
  _attr_entity_category : value;
  _attr_device_class : value;
  _attr_state_class : value;
  _attr_native_unit_of_measurement : value;
  _attr_device_info : DeviceInfo;
  attributes : value
}.

(** [f'{a}-{b}']. *)
Definition fstring_dash (a b : value) : M string := λ s,
  (Ok (format_value (heap s) a +:+ "-" +:+ format_value (heap s) b), s).

(** Building the set [{(d, v)}] hashes the pair, hence [v]. *)
Definition set_of_pair (d : string) (v : value)
  : M (list (string * value)) := λ s,
  if hashable (heap s) v then (Ok [(d, v)], s) else (Raise TypeError, s).

Definition HiveEntity_init (hive hive_device : value) : M HiveEntity :=
  let device := hive_device in
  attr_name ← getitem device (VStr "haName");
  hiveID ← getitem device (VStr "hiveID");
  hiveType ← getitem device (VStr "hiveType");
  unique_id ← fstring_dash hiveID hiveType;
  category ← get device (VStr "category") VNone;
  table ← load_global "DEVICETYPE";
  hiveType ← getitem device (VStr "hiveType");
  device_class ← get table hiveType VNone;
  table ← load_global "DEVICETYPE";
  hiveType ← get device (VStr "hiveType") VNone;
  record ← getitem table hiveType;
  state_class ← get record (VStr "state_class") VNone;
  table ← load_global "DEVICETYPE";
  hiveType ← get device (VStr "hiveType") VNone;
  record ← getitem table hiveType;
  unit ← get record (VStr "unit") VNone;
  device_id ← getitem device (VStr "device_id");
  ids ← set_of_pair DOMAIN device_id;
  deviceData ← getitem device (VStr "deviceData");
  model ← getitem deviceData (VStr "model");
  deviceData ← getitem device (VStr "deviceData");
  manufacturer ← getitem deviceData (VStr "manufacturer");
  device_name ← getitem device (VStr "device_name");
  deviceData ← getitem device (VStr "deviceData");
  version ← getitem deviceData (VStr "version");
  parentDevice ← getitem device (VStr "parentDevice");
  attributes ← alloc (ODict ∅);
  mret {| hive := hive;
          device := device;
          _attr_name := attr_name;
          _attr_unique_id := unique_id;
          _attr_entity_category := category;
          _attr_device_class := device_class;
          _attr_state_class := state_class;
          _attr_native_unit_of_measurement := unit;
          _attr_device_info :=
            {| identifiers := ids;
               model := model;
               manufacturer := manufacturer;
               name := device_name;
               sw_version := version;
               via_device := (DOMAIN, parentDevice) |};
          attributes := attributes |}.

End Module.

(** ** A concrete host, to run the module on examples *)

Definition demo_format (h : list obj) (v : value) : string :=
  match v with
  | VStr s => s
  | VNone => "None"
  | VBool true => "True"
  | VBool false => "False"
  | _ => "<object>"
  end.

(** The demonstration vendor answers by the user name of the configuration
    it receives: ["offline"] has no network, ["expired"] must log in again,
    ["broken"] fails in another way, anybody else owns one light and an
    empty list of switches. *)
Definition demo_startSession (s : state) (hive hive_config : value)
  : list obj * result value :=
  match obj_at (heap s) hive_config with
  | Some (ODict cfg) =>
      match cfg !! "username" with
      | Some (VStr "offline") => ([], Raise (HTTPException "Service Unavailable"))
      | Some (VStr "expired") => ([], Raise HiveReauthRequired)
      | Some (VStr "broken") => ([], Raise (OtherException "FileInUse"))
      | _ =>
          let n := length (heap s) in
          ([ODict (dict_display [("hiveName", VStr "Lamp")]);
            OList [VRef n];
            OList [];
            ODict (dict_display [("light", VRef (n + 1));
                                 ("switch", VRef (n + 2))])],
           Ok (VRef (n + 3)))
      end
  | _ => ([], Raise TypeError)
  end.

(** The demonstration host unloads the platforms of every entry but the
    one called ["busy"]. *)
Definition demo_unload (s : state) (entry : ConfigEntry)
    (platforms : list string) : result bool :=
  Ok (negb (bool_decide (entry_id entry = "busy"))).

#[local] Program Instance demo_host : Host := {|
  DOMAIN := "hive";
  PLATFORMS := ["binary_sensor"; "climate"; "light"; "sensor"; "switch";
                "water_heater"];
  PLATFORM_LOOKUP := [("binary_sensor", "binary_sensor");
                      ("climate", "climate");
                      ("light", "light");
                      ("sensor", "sensor");
                      ("switch", "switch");
                      ("water_heater", "water_heater")];
  CONF_PASSWORD := "password";
  CONF_SCAN_INTERVAL := "scan_interval";
  CONF_USERNAME := "username";
  SOURCE_IMPORT := "import";
  format_value := demo_format;
  async_get_clientsession := λ _ _, VNone;
  startSession := demo_startSession;
  async_unload_platforms := demo_unload;
  async_entries := λ _ _, []
|}.
Next Obligation. reflexivity. Qed.

Definition empty_state : state :=
  {| heap := []; module_globals := ∅; trace := [] |}.

(** A host state after the integration's [async_setup]: [hass.data] is
    object 0 and holds the (empty) dictionary of sessions, object 1; the
    configuration entry's data and options are objects 2 and 3. *)
Definition demo_hass : HomeAssistant := {| hass_data := VRef 0 |}.
Definition demo_entry : ConfigEntry :=
  {| entry_id := "entry1"; entry_data := VRef 2; entry_options := VRef 3 |}.
(** The same host after a successful setup of the entry: object 2 is the
    session stored for ["entry1"], next to the session of another entry. *)
Definition demo_loaded_state : state :=
  {| heap := [ODict (dict_display [("hive", VRef 1)]);
              ODict (dict_display [("entry0", VRef 3); ("entry1", VRef 2)]);
              OHive VNone;
              OHive VNone];
     module_globals := ∅;
     trace := [] |}.

Definition demo_state (user : string) (options : list (string * value))
  : state :=
  {| heap := [ODict (dict_display [("hive", VRef 1)]);
              ODict ∅;
              ODict (dict_display [("username", VStr user);
                                   ("password", VStr "secret")]);
              ODict (dict_display options)];
     module_globals := ∅;
     trace := [] |}.


(** ** Vocabulary of the statements *)

Section Vocabulary.
Context `{Host}.

(** The scan interval sent to the vendor for entry options [od]. *)
Definition scan_interval (od : gmap string value) : value :=
  default (VInt 120) (od !! CONF_SCAN_INTERVAL).

(** The host objects have the shape [async_setup_entry] relies on: the
    entry's data and options are dictionaries [dd] and [od], and
    [hass.data[DOMAIN]] is the dictionary object [ls] with contents
    [sd]. *)
Record setup_ready (s : state) (hass : HomeAssistant) (entry : ConfigEntry)
    (dd od : gmap string value) (ls : loc) (sd : gmap string value) : Prop := {
  ready_data : obj_at (heap s) (entry_data entry) = Some (ODict dd);
  ready_options : obj_at (heap s) (entry_options entry) = Some (ODict od);
  ready_sessions :
    ∃ hd, obj_at (heap s) (hass_data hass) = Some (ODict hd) ∧
          hd !! DOMAIN = Some (VRef ls) ∧
          heap s !! ls = Some (ODict sd)
}.

(** The state in which the session bootstrap is called from a ready
    state [s]: five objects have been allocated (the session, the
    session configuration, its options record, the copy of the entry's
    options and the argument of [update]) and the session has been
    stored under the entry's id. *)
Definition prepared (s : state) (hass : HomeAssistant) (entry : ConfigEntry)
    (dd od : gmap string value) (ls : loc) (sd : gmap string value) : state :=
  let n := length (heap s) in
  {| heap :=
       <[ls := ODict (<[entry_id entry := VRef n]> sd)]> (heap s) ++
       [OHive (async_get_clientsession s hass);
        ODict (<["options" := VRef (n + 2)]> dd);
        ODict {[CONF_SCAN_INTERVAL := scan_interval od]};
        ODict od;
        ODict {[CONF_SCAN_INTERVAL := scan_interval od]}];
     module_globals := module_globals s;
     trace := trace s |}.

(** The rest of [async_setup_entry] from the [try] statement on, for the
    session and the configuration allocated from [s0]. *)
Definition bootstrap (s0 : state) (entry : ConfigEntry) : M bool :=
  devices ← try_except (call_startSession (VRef (length (heap s0)))
                                           (VRef (length (heap s0) + 1)))
                       setup_entry_handler;
  forward_platforms entry devices PLATFORM_LOOKUP;;
  mret true.

(** The platforms forwarded for a devices dictionary [dm], in the order
    of the lookup table. *)
Definition forwarded (h : list obj) (dm : gmap string value)
    (items : list (string * string)) : list string :=
  map fst (List.filter (λ p, truthy h (default VNone (dm !! p.2))) items).

Definition forward_tasks (entry : ConfigEntry) (has : list string)
  : list event :=
  map (λ ha, CreateTask (ForwardEntrySetup (entry_id entry) ha)) has.

(** [hass.data[DOMAIN][entry.entry_id]] is [hive]. *)
Definition session_stored (s : state) (hass : HomeAssistant)
    (entry : ConfigEntry) (hive : value) : Prop :=
  ∃ hd sessions sd,
    obj_at (heap s) (hass_data hass) = Some (ODict hd) ∧
    hd !! DOMAIN = Some sessions ∧
    obj_at (heap s) sessions = Some (ODict sd) ∧
    sd !! entry_id entry = Some hive.

(** The state [async_setup] reaches after its first statement, when
    [hass.data] is the dictionary object [lh] with contents [hd]: a new
    empty dictionary has been allocated and stored under [DOMAIN]. *)
Definition reset_sessions (s : state) (lh : loc) (hd : gmap string value)
  : state :=
  {| heap := <[lh := ODict (<[DOMAIN := VRef (length (heap s))]> hd)]> (heap s)
             ++ [ODict ∅];
     module_globals := module_globals s;
     trace := trace s |}.

(** The statements of [async_setup] after the first. *)
Definition async_setup_import (config : value) : M bool :=
  present ← contains config DOMAIN;
  if negb present then mret true else
  conf ← getitem config (VStr DOMAIN);
  entries ← call_async_entries DOMAIN;
  match entries : list ConfigEntry with
  | [] =>
      context ← alloc (ODict (dict_display [("source", VStr SOURCE_IMPORT)]));
      username ← getitem conf (VStr CONF_USERNAME);
      password ← getitem conf (VStr CONF_PASSWORD);
      data ← alloc (ODict (dict_display [(CONF_USERNAME, username);
                                          (CONF_PASSWORD, password)]));
      emit (CreateTask (FlowInit DOMAIN context data));;
      mret true
  | _ :: _ => mret true
  end.

End Vocabulary.

(** The meaning of the display [DEVICETYPE]: from type string to record. *)
Definition DEVICETYPE_dict : gmap string (gmap string value) :=
  foldl (λ d kr, <[kr.1 := dict_display kr.2]> d) ∅ DEVICETYPE.

(** The module has been loaded: the global name [DEVICETYPE] is bound to
    the dictionary object [t], whose contents [table] map every type string
    of the display to a dictionary object holding its record, and nothing
    else. *)
Definition DEVICETYPE_loaded (s : state) (t : loc)
    (table : gmap string value) : Prop :=
  module_globals s !! "DEVICETYPE" = Some (VRef t) ∧
  heap s !! t = Some (ODict table) ∧
  ∀ k, match DEVICETYPE_dict !! k with
       | Some r => ∃ l, table !! k = Some (VRef l) ∧
                        heap s !! l = Some (ODict r)
       | None => table !! k = None
       end.

(** The contents of the table allocated by [module_load] on a heap of [n]
    objects: the record of the [i]-th entry of the display is object
    [n + i]. *)
Definition DEVICETYPE_table (n : nat) : gmap string value :=
  dict_display (zip DEVICETYPE.*1 (VRef <$> seq n (length DEVICETYPE))).

(** The fields a record of the table may have. *)
Definition DEVICETYPE_fields : list string :=
  ["icon"; "device_class"; "state_class"; "unit"].

Definition record_fields_ok (r : gmap string value) : bool :=
  forallb (λ kv : string * value, bool_decide (kv.1 ∈ DEVICETYPE_fields))
          (map_to_list r).

Definition scalar (v : value) : bool :=
  match v with
  | VRef _ => false
  | _ => true
  end.

(** The values a device dictionary holds under the keys [__init__]
    subscripts. *)
Record DeviceFields := {
  f_haName : value;
  f_hiveID : value;
  f_hiveType : value;
  f_device_id : value;
  f_device_name : value;
  f_parentDevice : value;
  f_model : value;
  f_manufacturer : value;
  f_version : value
}.

(** [hive_device] is a dictionary [d] that contains the required keys,
    with ["deviceData"] a dictionary containing ["model"],
    ["manufacturer"] and ["version"]. *)
Record has_required_keys (s : state) (hive_device : value)
    (d : gmap string value) (f : DeviceFields) : Prop := {
  device_dict : obj_at (heap s) hive_device = Some (ODict d);
  key_haName : d !! "haName" = Some (f_haName f);
  key_hiveID : d !! "hiveID" = Some (f_hiveID f);
  key_hiveType : d !! "hiveType" = Some (f_hiveType f);
  key_device_id : d !! "device_id" = Some (f_device_id f);
  key_device_name : d !! "device_name" = Some (f_device_name f);
  key_parentDevice : d !! "parentDevice" = Some (f_parentDevice f);
  key_deviceData :
    ∃ data dd,
      d !! "deviceData" = Some data ∧
      obj_at (heap s) data = Some (ODict dd) ∧
      dd !! "model" = Some (f_model f) ∧
      dd !! "manufacturer" = Some (f_manufacturer f) ∧
      dd !! "version" = Some (f_version f)
}.

Definition extended (s : state) (news : list obj) : state :=
  {| heap := heap s ++ news; module_globals := module_globals s;
     trace := trace s |}.

(** A computation that, on every outcome, leaves each object of the store
    in place and only allocates, leaves the module globals alone and only
    adds events to the trace. *)
Definition grows {A} (m : M A) : Prop :=
  ∀ s, ∃ news evs,
    heap (m s).2 = heap s ++ news ∧
    module_globals (m s).2 = module_globals s ∧
    trace (m s).2 = trace s ++ evs.

(** A computation that never emits an event. *)
Definition silent {A} (m : M A) : Prop :=
  ∀ s, trace (m s).2 = trace s.

(** A state in which the module has been loaded (objects 0 to 26) and the
    vendor has described a device: object 27 is its [deviceData], object 28
    the device dictionary. *)
Definition demo_device_state (hive_type device_id : value) : state :=
  extended (module_load empty_state).2
    [ODict (dict_display [("model", VStr "SLR1");
                          ("manufacturer", VStr "Hive");
                          ("version", VStr "1.0.0")]);
     ODict (dict_display [("haName", VStr "Lounge");
                          ("hiveID", VStr "abc");
                          ("hiveType", hive_type);
                          ("device_id", device_id);
                          ("deviceData", VRef 27);
                          ("device_name", VStr "Thermostat");
                          ("parentDevice", VStr "hub1")])].

Definition demo_fields (hive_type device_id : value) : DeviceFields :=
  {| f_haName := VStr "Lounge"; f_hiveID := VStr "abc";
     f_hiveType := hive_type; f_device_id := device_id;
     f_device_name := VStr "Thermostat"; f_parentDevice := VStr "hub1";
     f_model := VStr "SLR1"; f_manufacturer := VStr "Hive";
     f_version := VStr "1.0.0" |}.

Definition demo_device_dict (hive_type device_id : value)
  : gmap string value :=
  dict_display [("haName", VStr "Lounge");
                ("hiveID", VStr "abc");
                ("hiveType", hive_type);
                ("device_id", device_id);
                ("deviceData", VRef 27);
                ("device_name", VStr "Thermostat");
                ("parentDevice", VStr "hub1")].

(** A wrapped method for the demonstration: it records the new mode in the
    entity's attribute dictionary. *)
Definition demo_set_mode (self : value) (mode : value) : M value :=
  setitem self "mode" mode;; mret VNone.

(** A second host for the demonstrations: it already has an entry for
    every domain, and its vendor returns [None] from the bootstrap. *)
Definition demo_host_imported : Host := {|
  DOMAIN := "hive";
  PLATFORMS := ["light"; "switch"];
  PLATFORM_LOOKUP := [("light", "light"); ("switch", "switch")];
  CONF_PASSWORD := "password";
  CONF_SCAN_INTERVAL := "scan_interval";
  CONF_USERNAME := "username";
  SOURCE_IMPORT := "import";
  format_value := demo_format;
  format_value_str := λ _ _, eq_refl;
  async_get_clientsession := λ _ _, VNone;
  startSession := λ _ _ _, ([], Ok VNone);
  async_unload_platforms := demo_unload;
  async_entries := λ _ _, [demo_entry]
|}.

(** A host state before the component setup: [hass.data] is object 0 and
    is empty, the configuration is object 1 and its section for the
    integration, when there is one, object 2. *)
Definition demo_config_state (configured : bool)
    (section : list (string * value)) : state :=
  {| heap := [ODict ∅;
              ODict (dict_display
                       (("logger", VNone) ::
                        if configured then [("hive", VRef 2)] else []));
              ODict (dict_display section)];
     module_globals := ∅;
     trace := [] |}.

(** The module loaded (objects 0 to 26) next to the host's objects:
    [hass.data] is object 27, the dictionary of sessions object 28, the
    entry's data and options objects 29 and 30. *)
Definition demo_full_state : state :=
  extended (module_load empty_state).2
    [ODict (dict_display [("hive", VRef 28)]);
     ODict ∅;
     ODict (dict_display [("username", VStr "bob")]);
     ODict ∅].

Definition demo_full_hass : HomeAssistant := {| hass_data := VRef 27 |}.

Definition demo_full_entry : ConfigEntry :=
  {| entry_id := "entry1"; entry_data := VRef 29; entry_options := VRef 30 |}.

(** * Properties *)

(** ** Running computations *)

Lemma bind_run {A B} (m : M A) (f : A → M B) s :
  (m ≫= f) s = match m s with
               | (Ok a, s') => f a s'
               | (Raise e, s') => (Raise e, s')
               end.
Proof. reflexivity. Qed.

Lemma lookup_app_plus {A} (h t : list A) i :
  (h ++ t) !! (length h + i) = t !! i.
Proof.
  rewrite lookup_app_r by lia. f_equal. lia.
Qed.

Lemma lookup_app_length {A} (h t : list A) :
  (h ++ t) !! length h = t !! 0.
Proof.
  rewrite <- (Nat.add_0_r (length h)) at 1. apply lookup_app_plus.
Qed.

Lemma lookup_insert_app_plus {A} (h t : list A) l o i :
  (<[l := o]> h ++ t) !! (length h + i) = t !! i.
Proof. rewrite <- (length_insert h l o). apply lookup_app_plus. Qed.

Lemma lookup_insert_app_length {A} (h t : list A) l o :
  (<[l := o]> h ++ t) !! length h = t !! 0.
Proof. rewrite <- (length_insert h l o). apply lookup_app_length. Qed.

Lemma obj_at_app_l h h' v o :
  obj_at h v = Some o → obj_at (h ++ h') v = Some o.
Proof.
  destruct v; simpl; try discriminate.
  intros Hl. by apply lookup_app_l_Some.
Qed.

Lemma obj_at_lt h v o : obj_at h v = Some o → ∃ l, v = VRef l ∧ l < length h.
Proof.
  destruct v; simpl; try discriminate.
  intros Hl. eexists; split; [done|]. by eapply lookup_lt_Some.
Qed.

Lemma obj_at_insert_ne h l o v o' :
  v ≠ VRef l → obj_at h v = Some o' → obj_at (<[l := o]> h) v = Some o'.
Proof.
  destruct v; simpl; try discriminate.
  intros Hne Hl. rewrite list_lookup_insert_ne; [done|congruence].
Qed.

Lemma hashable_str h s : hashable h (VStr s) = true.
Proof. reflexivity. Qed.

Lemma getitem_run c (k : string) s d v :
  obj_at (heap s) c = Some (ODict d) → d !! k = Some v →
  getitem c (VStr k) s = (Ok v, s).
Proof. intros Hc Hk. unfold getitem, dict_find. by rewrite Hc, Hk. Qed.

Lemma getitem_missing c (k : string) s d :
  obj_at (heap s) c = Some (ODict d) → d !! k = None →
  getitem c (VStr k) s = (Raise (KeyError (VStr k)), s).
Proof. intros Hc Hk. unfold getitem, dict_find. by rewrite Hc, Hk. Qed.

Lemma get_run c (k : string) dflt s d :
  obj_at (heap s) c = Some (ODict d) →
  get c (VStr k) dflt s = (Ok (default dflt (d !! k)), s).
Proof.
  intros Hc. unfold get, dict_find. rewrite Hc. simpl.
  by destruct (d !! k).
Qed.

Lemma setitem_run l (k : string) v s d :
  heap s !! l = Some (ODict d) →
  setitem (VRef l) k v s =
    (Ok tt, {| heap := <[l := ODict (<[k := v]> d)]> (heap s);
               module_globals := module_globals s; trace := trace s |}).
Proof. intros Hl. unfold setitem. simpl. by rewrite Hl. Qed.

Lemma dict_copy_run c s d :
  obj_at (heap s) c = Some (ODict d) →
  dict_copy c s =
    (Ok (VRef (length (heap s))),
     {| heap := heap s ++ [ODict d]; module_globals := module_globals s;
        trace := trace s |}).
Proof. intros Hc. unfold dict_copy. by rewrite Hc. Qed.

Lemma update_run l other s d d' :
  heap s !! l = Some (ODict d) → obj_at (heap s) other = Some (ODict d') →
  update (VRef l) other s =
    (Ok tt, {| heap := <[l := ODict (d' ∪ d)]> (heap s);
               module_globals := module_globals s; trace := trace s |}).
Proof. intros Hl Ho. unfold update. simpl. by rewrite Hl, Ho. Qed.

Lemma dict_display_single k v : dict_display [(k, v)] = {[k := v]}.
Proof. reflexivity. Qed.

Ltac heap_norm :=
  repeat first
    [ rewrite length_app
    | rewrite <- app_assoc
    | rewrite insert_app_r
    | progress cbn [length app heap module_globals trace obj_at]
    | progress simpl (<[_ := _]> (_ :: _)) ].

Ltac heap_lookup :=
  heap_norm;
  first
    [ eassumption
    | apply lookup_app_l_Some; eassumption
    | apply obj_at_app_l; eassumption
    | rewrite lookup_app_plus; reflexivity
    | rewrite lookup_app_length; reflexivity ].

Section Setup_entry.
Context `{Host}.

Lemma async_setup_entry_prepared s hass entry dd od ls sd :
  setup_ready s hass entry dd od ls sd →
  async_setup_entry hass entry s =
    bootstrap s entry (prepared s hass entry dd od ls sd).
Proof.
  intros [Hd Ho (hd & Hh & Hdom & Hs)].
  unfold async_setup_entry, bootstrap, prepared.
  destruct s as [h g tr]; cbn [heap module_globals trace] in *.
  rewrite bind_run. unfold call_get_clientsession at 1.
  rewrite bind_run. unfold alloc at 1. heap_norm.
  rewrite bind_run, (dict_copy_run _ _ dd) by heap_lookup. heap_norm.
  rewrite bind_run. unfold alloc at 1. heap_norm.
  rewrite bind_run, (setitem_run _ _ _ _ dd) by heap_lookup. heap_norm.
  rewrite bind_run, (getitem_run _ _ _ _ (VRef (length h + 2)))
    by (heap_lookup || apply lookup_insert_eq).
  rewrite bind_run, (dict_copy_run _ _ od) by heap_lookup. heap_norm.
  rewrite bind_run, (get_run _ _ _ _ od) by heap_lookup.
  fold (scan_interval od).
  rewrite bind_run. unfold alloc at 1. heap_norm.
  rewrite bind_run, (update_run _ _ _ ∅ (dict_display [(CONF_SCAN_INTERVAL, scan_interval od)])) by heap_lookup.
  heap_norm.
  rewrite bind_run, (getitem_run _ _ _ hd (VRef ls)) by heap_lookup.
  rewrite bind_run, (setitem_run _ _ _ _ sd) by heap_lookup. heap_norm.
  rewrite insert_app_l by (by eapply lookup_lt_Some).
  rewrite dict_display_single, (right_id_L ∅ (∪)).
  reflexivity.
Qed.

Lemma forward_platforms_run entry devices dm items s :
  obj_at (heap s) devices = Some (ODict dm) →
  forward_platforms entry devices items s =
    (Ok tt, {| heap := heap s; module_globals := module_globals s;
               trace := trace s ++
                        forward_tasks entry (forwarded (heap s) dm items) |}).
Proof.
  intros Hdev. revert s Hdev.
  induction items as [|[ha hv] items IH]; intros s Hdev.
  - unfold forwarded, forward_tasks. simpl. rewrite app_nil_r.
    by destruct s.
  - cbn [forward_platforms].
    rewrite bind_run, (get_run _ _ _ _ dm) by done.
    rewrite bind_run. unfold truth at 1.
    unfold forwarded, forward_tasks. cbn [List.filter snd].
    destruct (truthy (heap s) (default VNone (dm !! hv))) eqn:Ht.
    + rewrite bind_run. unfold emit at 1.
      rewrite IH by done. cbn [heap module_globals trace map fst].
      unfold forwarded, forward_tasks.
      by rewrite <- app_assoc.
    + rewrite bind_run. unfold mret at 1, M_ret at 1.
      by rewrite IH.
Qed.

Lemma forwarded_spec h dm items ha :
  In ha (forwarded h dm items) ↔
  ∃ hv, In (ha, hv) items ∧ truthy h (default VNone (dm !! hv)) = true.
Proof.
  unfold forwarded. rewrite in_map_iff. split.
  - intros ([ha' hv] & Heq & Hin). simpl in Heq. subst ha'.
    apply filter_In in Hin as [Hin Ht]. eauto.
  - intros (hv & Hin & Ht). exists (ha, hv). split; [done|].
    apply filter_In. by split.
Qed.

Lemma bootstrap_raise s0 entry s news e :
  startSession s (VRef (length (heap s0))) (VRef (length (heap s0) + 1))
    = (news, Raise e) →
  bootstrap s0 entry s =
    match e with
    | HTTPException _ =>
        (Raise (ConfigEntryNotReady e),
         {| heap := heap s ++ news; module_globals := module_globals s;
            trace := trace s ++
              [LogError "Could not connect to the internet: %s" e] |})
    | HiveReauthRequired => (Raise (ConfigEntryAuthFailed e), extended s news)
    | _ => (Raise e, extended s news)
    end.
Proof.
  intros Hcall. unfold bootstrap.
  rewrite bind_run. unfold try_except, call_startSession.
  rewrite Hcall. by destruct e.
Qed.

Lemma bootstrap_return s0 entry s news devices dm :
  startSession s (VRef (length (heap s0))) (VRef (length (heap s0) + 1))
    = (news, Ok devices) →
  obj_at (heap s ++ news) devices = Some (ODict dm) →
  bootstrap s0 entry s =
    (Ok true,
     {| heap := heap s ++ news; module_globals := module_globals s;
        trace := trace s ++
          forward_tasks entry (forwarded (heap s ++ news) dm PLATFORM_LOOKUP) |}).
Proof.
  intros Hcall Hdev. unfold bootstrap.
  rewrite bind_run. unfold try_except, call_startSession.
  rewrite Hcall.
  rewrite bind_run, (forward_platforms_run _ _ dm) by done.
  reflexivity.
Qed.

Lemma forward_platforms_frame entry devices items s :
  ∃ r tr, forward_platforms entry devices items s =
            (r, {| heap := heap s; module_globals := module_globals s;
                   trace := tr |}).
Proof.
  revert s. induction items as [|[ha hv] items IH]; intros [h g tr].
  { by eexists _, _. }
  cbn [forward_platforms heap module_globals].
  rewrite bind_run. unfold get.
  cbn [heap]. destruct (obj_at h devices) as [[dm| | |]|];
    try by eexists _, _.
  destruct (dict_find h dm (VStr hv)) as [[v|]|e];
    try by eexists _, _.
  - rewrite bind_run. unfold truth. rewrite bind_run. cbn [heap].
    destruct (truthy h v).
    + unfold emit. apply (IH {| heap := h |}).
    + apply (IH {| heap := h |}).
  - rewrite bind_run. unfold truth. rewrite bind_run. cbn [heap].
    destruct (truthy h VNone).
    + unfold emit. apply (IH {| heap := h |}).
    + apply (IH {| heap := h |}).
Qed.

Lemma bootstrap_heap s0 entry s :
  ∃ news, heap (bootstrap s0 entry s).2 = heap s ++ news ∧
          module_globals (bootstrap s0 entry s).2 = module_globals s.
Proof.
  unfold bootstrap. rewrite bind_run.
  unfold try_except, call_startSession.
  destruct (startSession s _ _) as [news [devices|e]].
  - exists news. rewrite bind_run.
    match goal with |- context [forward_platforms ?e ?d ?i ?s1] =>
      destruct (forward_platforms_frame e d i s1) as (r & tr & ->) end.
    by destruct r.
  - exists news. by destruct e.
Qed.

Lemma session_stored_app s hass entry hive news :
  session_stored s hass entry hive →
  session_stored (extended s news) hass entry hive.
Proof.
  intros (hd & sessions & sd & Hh & Hdom & Hs & He).
  exists hd, sessions, sd. unfold extended; cbn [heap].
  repeat split; try done; by apply obj_at_app_l.
Qed.

Lemma session_stored_heap s s' hass entry hive :
  heap s' = heap s → session_stored s hass entry hive →
  session_stored s' hass entry hive.
Proof. unfold session_stored. by intros ->. Qed.

Lemma prepared_stored s hass entry dd od ls sd :
  setup_ready s hass entry dd od ls sd →
  hass_data hass ≠ VRef ls →
  session_stored (prepared s hass entry dd od ls sd) hass entry
                 (VRef (length (heap s))).
Proof.
  intros [_ _ (hd & Hh & Hdom & Hs)] Hne.
  exists hd, (VRef ls), (<[entry_id entry := VRef (length (heap s))]> sd).
  unfold prepared; cbn [heap obj_at]. repeat split.
  - apply obj_at_app_l. by apply obj_at_insert_ne.
  - done.
  - apply lookup_app_l_Some, list_lookup_insert_eq.
    by eapply lookup_lt_Some.
  - apply lookup_insert_eq.
Qed.

End Setup_entry.

(** ** Setting up a config entry *)

Section Setup_entry_claims.
Context `{Host}.

(** C1: when the session bootstrap call raises [HTTPException], setup
    raises [ConfigEntryNotReady]; when it raises [HiveReauthRequired],
    setup raises [ConfigEntryAuthFailed]; any other exception of the
    call leaves setup as it is.  The call is reached from a ready state,
    in the prepared state. *)
Theorem async_setup_entry_exception_mapping s hass entry dd od ls sd news e :
  setup_ready s hass entry dd od ls sd →
  startSession (prepared s hass entry dd od ls sd)
               (VRef (length (heap s))) (VRef (length (heap s) + 1))
    = (news, Raise e) →
  (∀ r, e = HTTPException r →
        (async_setup_entry hass entry s).1 = Raise (ConfigEntryNotReady e)) ∧
  (e = HiveReauthRequired →
        (async_setup_entry hass entry s).1 = Raise (ConfigEntryAuthFailed e)) ∧
  ((∀ r, e ≠ HTTPException r) → e ≠ HiveReauthRequired →
        (async_setup_entry hass entry s).1 = Raise e).
Proof.
  intros Hready Hcall.
  rewrite (async_setup_entry_prepared _ _ _ _ _ _ _ Hready).
  rewrite (bootstrap_raise _ _ _ _ _ Hcall).
  repeat split.
  - by intros r ->.
  - by intros ->.
  - intros Hhttp Hreauth. destruct e; try done.
    by destruct (Hhttp reason).
Qed.

(** C7: the configuration passed to the bootstrap call is a new
    dictionary holding the entry's data and, under ["options"], a record
    whose scan interval is the entry's option when present and 120
    otherwise; the entry's data and options are the same objects with
    the same contents at the call and when setup is over. *)
Theorem async_setup_entry_session_config s hass entry dd od ls sd :
  setup_ready s hass entry dd od ls sd →
  entry_data entry ≠ VRef ls →
  entry_options entry ≠ VRef ls →
  let s1 := prepared s hass entry dd od ls sd in
  let hive_config := VRef (length (heap s) + 1) in
  let options := VRef (length (heap s) + 2) in
  async_setup_entry hass entry s = bootstrap s entry s1 ∧
  obj_at (heap s) hive_config = None ∧
  obj_at (heap s1) hive_config = Some (ODict (<["options" := options]> dd)) ∧
  obj_at (heap s1) options =
    Some (ODict {[CONF_SCAN_INTERVAL :=
                    match od !! CONF_SCAN_INTERVAL with
                    | Some v => v
                    | None => VInt 120
                    end]}) ∧
  obj_at (heap s1) (entry_data entry) = Some (ODict dd) ∧
  obj_at (heap s1) (entry_options entry) = Some (ODict od) ∧
  obj_at (heap (async_setup_entry hass entry s).2) (entry_data entry)
    = Some (ODict dd) ∧
  obj_at (heap (async_setup_entry hass entry s).2) (entry_options entry)
    = Some (ODict od).
Proof.
  intros Hready Hned Hneo s1 hive_config options.
  pose proof (async_setup_entry_prepared _ _ _ _ _ _ _ Hready) as Hrun.
  destruct Hready as [Hd Ho (hd & Hh & Hdom & Hs)].
  assert (obj_at (heap s1) (entry_data entry) = Some (ODict dd)) as Hd1.
  { apply obj_at_app_l. by apply obj_at_insert_ne. }
  assert (obj_at (heap s1) (entry_options entry) = Some (ODict od)) as Ho1.
  { apply obj_at_app_l. by apply obj_at_insert_ne. }
  split; [done|]. split.
  { simpl. apply lookup_ge_None. lia. }
  split.
  { subst s1 hive_config options; unfold prepared; cbn [heap obj_at].
    by rewrite lookup_insert_app_plus. }
  split.
  { subst s1 hive_config options; unfold prepared; cbn [heap obj_at].
    by rewrite lookup_insert_app_plus. }
  split; [done|]. split; [done|].
  rewrite Hrun. fold s1.
  destruct (bootstrap_heap s entry s1) as (news & -> & _).
  split; by apply obj_at_app_l.
Qed.

(** C9: the new session object is stored under the entry's id in
    [hass.data[DOMAIN]] in the state in which the bootstrap call is made,
    and it is still stored there in the state setup ends in, whatever the
    outcome; in particular when setup raises [ConfigEntryNotReady] or
    [ConfigEntryAuthFailed]. *)
Theorem async_setup_entry_session_kept s hass entry dd od ls sd :
  setup_ready s hass entry dd od ls sd →
  hass_data hass ≠ VRef ls →
  let s1 := prepared s hass entry dd od ls sd in
  let hive := VRef (length (heap s)) in
  async_setup_entry hass entry s = bootstrap s entry s1 ∧
  obj_at (heap s) hive = None ∧
  obj_at (heap s1) hive = Some (OHive (async_get_clientsession s hass)) ∧
  session_stored s1 hass entry hive ∧
  ∀ c s',
    async_setup_entry hass entry s = (Raise (ConfigEntryNotReady c), s') ∨
    async_setup_entry hass entry s = (Raise (ConfigEntryAuthFailed c), s') →
    session_stored s' hass entry hive ∧
    obj_at (heap s') hive = Some (OHive (async_get_clientsession s hass)).
Proof.
  intros Hready Hne s1 hive.
  pose proof (async_setup_entry_prepared _ _ _ _ _ _ _ Hready) as Hrun.
  pose proof (prepared_stored _ _ _ _ _ _ _ Hready Hne) as Hstored.
  assert (obj_at (heap s1) hive = Some (OHive (async_get_clientsession s hass)))
    as Hhive.
  { subst s1 hive; unfold prepared; cbn [heap obj_at].
    by rewrite lookup_insert_app_length. }
  split; [done|]. split.
  { simpl. apply lookup_ge_None. lia. }
  split; [done|]. split; [done|].
  intros c s' Hres.
  assert (s' = (async_setup_entry hass entry s).2) as ->
    by (by destruct Hres as [-> | ->]).
  rewrite Hrun. fold s1.
  destruct (bootstrap_heap s entry s1) as (news & Hheap & _).
  split.
  - apply (session_stored_heap (extended s1 news)); [done|].
    by apply session_stored_app.
  - rewrite Hheap. by apply obj_at_app_l.
Qed.

(** C10: when the bootstrap call returns a devices dictionary [dm], setup
    returns [True] and creates one forwarding task per platform of
    [PLATFORM_LOOKUP] whose Hive type has a truthy entry in [dm], in the
    order of the table, and no other. *)
Theorem async_setup_entry_forwarding s hass entry dd od ls sd news devices dm :
  setup_ready s hass entry dd od ls sd →
  let s1 := prepared s hass entry dd od ls sd in
  startSession s1 (VRef (length (heap s))) (VRef (length (heap s) + 1))
    = (news, Ok devices) →
  obj_at (heap s1 ++ news) devices = Some (ODict dm) →
  ∃ s' created,
    async_setup_entry hass entry s = (Ok true, s') ∧
    heap s' = heap s1 ++ news ∧
    trace s' = trace s ++ forward_tasks entry created ∧
    created = forwarded (heap s') dm PLATFORM_LOOKUP ∧
    ∀ ha_type,
      In ha_type created ↔
      ∃ hive_type,
        In (ha_type, hive_type) PLATFORM_LOOKUP ∧
        match dm !! hive_type with
        | Some device_list => truthy (heap s') device_list = true
        | None => False
        end.
Proof.
  intros Hready s1 Hcall Hdev.
  rewrite (async_setup_entry_prepared _ _ _ _ _ _ _ Hready). fold s1.
  rewrite (bootstrap_return _ _ _ _ _ _ Hcall Hdev).
  eexists _, _. split; [reflexivity|]. cbn [heap trace].
  split; [done|]. split; [done|]. split; [done|].
  intros ha. rewrite forwarded_spec.
  split; intros (hv & Hin & Ht); exists hv; split; try done.
  - destruct (dm !! hv); [done|discriminate].
  - by destruct (dm !! hv).
Qed.

End Setup_entry_claims.

(** Runs on the demonstration host. *)

Lemma demo_ready user options :
  setup_ready (demo_state user options) demo_hass demo_entry
    (dict_display [("username", VStr user); ("password", VStr "secret")])
    (dict_display options) 1 ∅.
Proof.
  split; [reflexivity | reflexivity |].
  exists (dict_display [("hive", VRef 1)]).
  split; [reflexivity | split; [vm_compute; reflexivity | reflexivity]].
Defined.

Lemma async_setup_entry_exception_mapping_witness :
  (async_setup_entry demo_hass demo_entry (demo_state "offline" [])).1
    = Raise (ConfigEntryNotReady (HTTPException "Service Unavailable")) ∧
  (async_setup_entry demo_hass demo_entry (demo_state "expired" [])).1
    = Raise (ConfigEntryAuthFailed HiveReauthRequired) ∧
  (async_setup_entry demo_hass demo_entry (demo_state "broken" [])).1
    = Raise (OtherException "FileInUse").
Proof.
  split; [|split].
  - refine (proj1 (async_setup_entry_exception_mapping
                     (demo_state "offline" []) demo_hass demo_entry _ _ 1 ∅ []
                     (HTTPException "Service Unavailable")
                     (demo_ready _ _) _) _ eq_refl).
    vm_compute; reflexivity.
  - refine (proj1 (proj2 (async_setup_entry_exception_mapping
                     (demo_state "expired" []) demo_hass demo_entry _ _ 1 ∅ []
                     HiveReauthRequired (demo_ready _ _) _)) eq_refl).
    vm_compute; reflexivity.
  - refine (proj2 (proj2 (async_setup_entry_exception_mapping
                     (demo_state "broken" []) demo_hass demo_entry _ _ 1 ∅ []
                     (OtherException "FileInUse") (demo_ready _ _) _)) _ _).
    + vm_compute; reflexivity.
    + discriminate.
    + discriminate.
Defined.

Lemma async_setup_entry_session_config_witness :
  let s := demo_state "bob" [("scan_interval", VInt 30)] in
  let s' := (async_setup_entry demo_hass demo_entry s).2 in
  obj_at (heap s') (VRef 2) = obj_at (heap s) (VRef 2) ∧
  obj_at (heap s') (VRef 3) = obj_at (heap s) (VRef 3).
Proof.
  intros s s'.
  destruct (async_setup_entry_session_config s demo_hass demo_entry _ _ 1 ∅
              (demo_ready _ _)) as (_ & _ & _ & _ & _ & _ & Hd & Ho).
  - discriminate.
  - discriminate.
  - split; [exact Hd | exact Ho].
Defined.

Lemma async_setup_entry_session_kept_witness :
  let s := demo_state "offline" [] in
  session_stored (async_setup_entry demo_hass demo_entry s).2
                 demo_hass demo_entry (VRef 4).
Proof.
  intros s.
  destruct (async_setup_entry_session_kept s demo_hass demo_entry _ _ 1 ∅
              (demo_ready _ _)) as (_ & _ & _ & _ & Hkept).
  - discriminate.
  - refine (proj1 (Hkept (HTTPException "Service Unavailable") _ (or_introl _))).
    vm_compute; reflexivity.
Defined.

Lemma async_setup_entry_forwarding_witness :
  ∃ s', async_setup_entry demo_hass demo_entry (demo_state "bob" [])
          = (Ok true, s') ∧
        trace s' = [CreateTask (ForwardEntrySetup "entry1" "light")].
Proof.
  destruct (async_setup_entry_forwarding (demo_state "bob" []) demo_hass
              demo_entry _ _ 1 ∅
              [ODict (dict_display [("hiveName", VStr "Lamp")]);
               OList [VRef 9]; OList [];
               ODict (dict_display [("light", VRef 10); ("switch", VRef 11)])]
              (VRef 12)
              (dict_display [("light", VRef 10); ("switch", VRef 11)])
              (demo_ready _ _))
    as (s' & created & Hrun & Hheap & Htrace & Hcreated & _).
  - vm_compute; reflexivity.
  - vm_compute; reflexivity.
  - exists s'. split; [exact Hrun|].
    rewrite Htrace, Hcreated, Hheap. vm_compute; reflexivity.
Defined.

(** ** Unloading a config entry and the refresh decorator *)

Lemma pop_run l (k : string) s d v :
  heap s !! l = Some (ODict d) → d !! k = Some v →
  pop (VRef l) k s =
    (Ok v, {| heap := <[l := ODict (delete k d)]> (heap s);
              module_globals := module_globals s; trace := trace s |}).
Proof. intros Hl Hk. unfold pop. simpl. by rewrite Hl, Hk. Qed.

Section Unload_claims.
Context `{Host}.

(** C4: unloading returns what the host's [async_unload_platforms],
    called with the entry and [PLATFORMS], returns.  When that is
    [False] the state is left as it was; when it is [True] and a session
    is stored for the entry, that entry of [hass.data[DOMAIN]] is removed,
    the other entries and all other objects are kept. *)
Theorem async_unload_entry_delegates s hass entry :
  (async_unload_platforms s entry PLATFORMS = Ok false →
     async_unload_entry hass entry s = (Ok false, s)) ∧
  (∀ hd ls sd hive,
     async_unload_platforms s entry PLATFORMS = Ok true →
     obj_at (heap s) (hass_data hass) = Some (ODict hd) →
     hd !! DOMAIN = Some (VRef ls) →
     heap s !! ls = Some (ODict sd) →
     sd !! entry_id entry = Some hive →
     ∃ s' sd',
       async_unload_entry hass entry s = (Ok true, s') ∧
       heap s' !! ls = Some (ODict sd') ∧
       sd' !! entry_id entry = None ∧
       (∀ k, k ≠ entry_id entry → sd' !! k = sd !! k) ∧
       (∀ l, l ≠ ls → heap s' !! l = heap s !! l) ∧
       module_globals s' = module_globals s ∧
       trace s' = trace s).
Proof.
  split.
  - intros Hhelper. unfold async_unload_entry.
    rewrite bind_run. unfold call_async_unload_platforms. by rewrite Hhelper.
  - intros hd ls sd hive Hhelper Hh Hdom Hs Hstored.
    exists {| heap := <[ls := ODict (delete (entry_id entry) sd)]> (heap s);
              module_globals := module_globals s; trace := trace s |},
           (delete (entry_id entry) sd).
    split.
    { unfold async_unload_entry.
      rewrite bind_run. unfold call_async_unload_platforms. rewrite Hhelper.
      rewrite bind_run, bind_run, (getitem_run _ _ _ hd (VRef ls)) by done.
      by rewrite bind_run, (pop_run _ _ _ sd hive) by done. }
    cbn [heap module_globals trace]. split.
    { apply list_lookup_insert_eq. by eapply lookup_lt_Some. }
    split; [apply lookup_delete_eq|].
    split; [by intros k Hk; apply lookup_delete_ne|].
    split; [by intros l Hl; apply list_lookup_insert_ne|].
    done.
Qed.

(** C5: a call of a wrapped method first runs the wrapped function to
    completion; when that completes normally, exactly one
    [DispatcherSend DOMAIN] is appended to the trace the wrapped call
    leaves, and nothing else changes.  Conversely the wrapper completes
    normally only in this way, and it sends nothing when the wrapped call
    raises. *)
Theorem refresh_system_notifies {Self Args A : Type}
    (func : Self → Args → M A) self args s :
  (∀ a s1, func self args s = (Ok a, s1) →
     refresh_system func self args s =
       (Ok tt, {| heap := heap s1; module_globals := module_globals s1;
                  trace := trace s1 ++ [DispatcherSend DOMAIN] |})) ∧
  (∀ u s', refresh_system func self args s = (Ok u, s') →
     ∃ a s1,
       func self args s = (Ok a, s1) ∧
       heap s' = heap s1 ∧
       module_globals s' = module_globals s1 ∧
       trace s' = trace s1 ++ [DispatcherSend DOMAIN]) ∧
  (∀ e s1, func self args s = (Raise e, s1) →
     refresh_system func self args s = (Raise e, s1)).
Proof.
  unfold refresh_system. rewrite bind_run.
  destruct (func self args s) as [[a|e] s1].
  - split; [|split].
    + by intros ? ? [= <- <-].
    + unfold emit. intros u s' [= _ <-]. by exists a, s1.
    + discriminate.
  - split; [|split]; try discriminate.
    by intros ? ? [= <- <-].
Qed.

End Unload_claims.

Lemma async_unload_entry_delegates_witness :
  (async_unload_entry demo_hass
     {| entry_id := "busy"; entry_data := VNone; entry_options := VNone |}
     demo_loaded_state).1 = Ok false ∧
  ∃ s', async_unload_entry demo_hass demo_entry demo_loaded_state
          = (Ok true, s') ∧
        heap s' !! 1 = Some (ODict (dict_display [("entry0", VRef 3)])).
Proof.
  split.
  - rewrite (proj1 (async_unload_entry_delegates demo_loaded_state demo_hass
                      {| entry_id := "busy"; entry_data := VNone;
                         entry_options := VNone |}));
      [reflexivity | vm_compute; reflexivity].
  - destruct (proj2 (async_unload_entry_delegates demo_loaded_state demo_hass
                       demo_entry)
                (dict_display [("hive", VRef 1)]) 1
                (dict_display [("entry0", VRef 3); ("entry1", VRef 2)])
                (VRef 2))
      as (s' & sd' & Hrun & _).
    + reflexivity.
    + reflexivity.
    + vm_compute; reflexivity.
    + reflexivity.
    + vm_compute; reflexivity.
    + exists s'. split; [exact Hrun|].
      assert (s' = (async_unload_entry demo_hass demo_entry
                      demo_loaded_state).2) as -> by (by rewrite Hrun).
      vm_compute; reflexivity.
Defined.

Lemma refresh_system_notifies_witness :
  let s := demo_state "bob" [] in
  let s1 := (demo_set_mode (VRef 1) (VStr "heat") s).2 in
  refresh_system demo_set_mode (VRef 1) (VStr "heat") s =
    (Ok tt, {| heap := heap s1; module_globals := module_globals s1;
               trace := trace s1 ++ [DispatcherSend "hive"] |}).
Proof.
  intros s s1.
  refine (proj1 (refresh_system_notifies demo_set_mode (VRef 1) (VStr "heat") s)
            VNone s1 _).
  vm_compute; reflexivity.
Defined.

(** ** Loading the module *)

Lemma alloc_records_run items s :
  alloc_records items s =
    (Ok (zip items.*1 (VRef <$> seq (length (heap s)) (length items))),
     {| heap := heap s ++ ((λ kr, ODict (dict_display kr.2)) <$> items);
        module_globals := module_globals s; trace := trace s |}).
Proof.
  revert s. induction items as [|[k r] items IH]; intros s.
  - cbn. rewrite app_nil_r. by destruct s.
  - cbn [alloc_records]. rewrite bind_run. unfold alloc at 1.
    rewrite bind_run, IH. cbn [heap module_globals trace].
    rewrite length_app, Nat.add_1_r, <- app_assoc. reflexivity.
Qed.

Lemma table_represents (h : list obj) items :
  ∀ n (acc_t : gmap string value) (acc_d : gmap string (gmap string value)),
    (∀ i kr, items !! i = Some kr →
             h !! (n + i) = Some (ODict (dict_display kr.2))) →
    (∀ k, match acc_d !! k with
          | Some r => ∃ l, acc_t !! k = Some (VRef l) ∧ h !! l = Some (ODict r)
          | None => acc_t !! k = None
          end) →
    ∀ k, match foldl (λ d kr, <[kr.1 := dict_display kr.2]> d) acc_d items !! k
         with
         | Some r =>
             ∃ l, foldl (λ d kv, <[kv.1 := kv.2]> d) acc_t
                    (zip items.*1 (VRef <$> seq n (length items))) !! k
                  = Some (VRef l) ∧ h !! l = Some (ODict r)
         | None =>
             foldl (λ d kv, <[kv.1 := kv.2]> d) acc_t
               (zip items.*1 (VRef <$> seq n (length items))) !! k = None
         end.
Proof.
  induction items as [|[k0 r0] items IH]; intros n acc_t acc_d Hheap Hacc k.
  - apply Hacc.
  - cbn [foldl fmap list_fmap length seq zip zip_with fst snd].
    apply IH.
    + intros i kr Hi. replace (S n + i) with (n + S i) by lia.
      by apply Hheap.
    + intros k'. destruct (decide (k0 = k')) as [->|Hne].
      * rewrite !lookup_insert_eq. exists n. split; [done|].
        rewrite <- (Nat.add_0_r n). exact (Hheap 0 (k', r0) eq_refl).
      * rewrite !lookup_insert_ne by done. apply Hacc.
Qed.

Lemma module_load_loaded s :
  ∃ s',
    module_load s = (Ok tt, s') ∧
    DEVICETYPE_loaded s' (length (heap s) + length DEVICETYPE)
                      (DEVICETYPE_table (length (heap s))) ∧
    trace s' = trace s ∧
    heap s' = heap s ++
              ((λ kr, ODict (dict_display kr.2)) <$> DEVICETYPE) ++
              [ODict (DEVICETYPE_table (length (heap s)))] ∧
    module_globals s' =
      <["DEVICETYPE" := VRef (length (heap s) + length DEVICETYPE)]>
        (module_globals s).
Proof.
  unfold module_load. rewrite bind_run, alloc_records_run.
  rewrite bind_run. unfold alloc at 1. cbn [heap module_globals trace].
  unfold store_global. cbn [heap module_globals trace].
  eexists. split; [reflexivity|].
  cbn [heap module_globals trace].
  split; [|split; [done|split;
    [by rewrite <- app_assoc | by rewrite length_app, length_fmap]]].
  split; [|split]; cbn [heap module_globals trace].
  - rewrite length_app, length_fmap. apply lookup_insert_eq.
  - rewrite <- app_assoc, lookup_app_plus.
    apply list_lookup_middle. by rewrite length_fmap.
  - apply table_represents.
    + intros i kr Hi. rewrite <- app_assoc, lookup_app_plus.
      apply lookup_app_l_Some. by rewrite list_lookup_fmap, Hi.
    + intros k. by rewrite !lookup_empty.
Qed.

(** ** The entity base class *)

Lemma load_global_run name s v :
  module_globals s !! name = Some v → load_global name s = (Ok v, s).
Proof. intros Hg. unfold load_global. by rewrite Hg. Qed.

Lemma DEVICETYPE_loaded_app s t table news :
  DEVICETYPE_loaded s t table → DEVICETYPE_loaded (extended s news) t table.
Proof.
  intros (Hg & Ht & Hrec). split; [done|]. split.
  - by apply lookup_app_l_Some.
  - intros k. specialize (Hrec k).
    destruct (DEVICETYPE_dict !! k); [|done].
    destruct Hrec as (l & Hk & Hl). exists l.
    split; [done|]. by apply lookup_app_l_Some.
Qed.

(** No record of the table stores a reference under ["device_class"]. *)
Lemma record_device_class_scalar t r :
  DEVICETYPE_dict !! t = Some r →
  scalar (default VNone (r !! "device_class")) = true.
Proof.
  revert t r.
  change (map_Forall (λ _ r, scalar (default VNone (r !! "device_class")) = true)
            DEVICETYPE_dict).
  apply map_Forall_to_list, Forall_forall.
  assert (∀ l, forallb (λ kr : string * gmap string value,
                 scalar (default VNone (kr.2 !! "device_class"))) l = true →
               ∀ kr, kr ∈ l →
                 uncurry (λ _ r, scalar (default VNone (r !! "device_class"))
                                 = true) kr) as Hall.
  { induction l as [|[k r] l IH]; intros Hl kr Hin.
    - by apply elem_of_nil in Hin.
    - cbn in Hl. apply andb_true_iff in Hl as [Hr Hl].
      apply elem_of_cons in Hin as [-> | Hin]; [done | by apply IH]. }
  apply Hall. vm_compute. reflexivity.
Qed.

Section Entity.
Context `{Host}.

(** What [__init__] computes for a device of a known type. *)
Lemma HiveEntity_init_run s hive hive_device d f t tl table r :
  DEVICETYPE_loaded s tl table →
  has_required_keys s hive_device d f →
  f_hiveType f = VStr t →
  DEVICETYPE_dict !! t = Some r →
  hashable (heap s) (f_device_id f) = true →
  ∃ l,
    table !! t = Some (VRef l) ∧
    heap s !! l = Some (ODict r) ∧
    HiveEntity_init hive hive_device s =
      (Ok {| hive := hive;
             device := hive_device;
             _attr_name := f_haName f;
             _attr_unique_id :=
               format_value (heap s) (f_hiveID f) +:+ "-" +:+ t;
             _attr_entity_category := default VNone (d !! "category");
             _attr_device_class := VRef l;
             _attr_state_class := default VNone (r !! "state_class");
             _attr_native_unit_of_measurement := default VNone (r !! "unit");
             _attr_device_info :=
               {| identifiers := [(DOMAIN, f_device_id f)];
                  model := f_model f;
                  manufacturer := f_manufacturer f;
                  name := f_device_name f;
                  sw_version := f_version f;
                  via_device := (DOMAIN, f_parentDevice f) |};
             attributes := VRef (length (heap s)) |},
       {| heap := heap s ++ [ODict ∅];
          module_globals := module_globals s;
          trace := trace s |}).
Proof.
  intros (Hg & Ht & Hrec) [Hdev Hname Hid Htype Hdid Hdname Hparent
    (data & dd & Hdata & Hdd & Hmodel & Hmanu & Hver)] Hstr Hknown Hhash.
  specialize (Hrec t). rewrite Hknown in Hrec.
  destruct Hrec as (l & Hl & Hr). exists l. split; [done|]. split; [done|].
  rewrite Hstr in Htype.
  assert (obj_at (heap s) (VRef tl) = Some (ODict table)) as Htab by done.
  assert (obj_at (heap s) (VRef l) = Some (ODict r)) as Hrecord by done.
  unfold HiveEntity_init. cbv zeta.
  rewrite bind_run, (getitem_run _ _ _ d (f_haName f)) by done.
  rewrite bind_run, (getitem_run _ _ _ d (f_hiveID f)) by done.
  rewrite bind_run, (getitem_run _ _ _ d (VStr t)) by done.
  rewrite bind_run. unfold fstring_dash at 1. rewrite format_value_str.
  rewrite bind_run, (get_run _ _ _ _ d) by done.
  rewrite bind_run, (load_global_run _ _ _ Hg).
  rewrite bind_run, (getitem_run _ _ _ d (VStr t)) by done.
  rewrite bind_run, (get_run _ _ _ _ table), Hl by done. cbn [from_option id].
  rewrite bind_run, (load_global_run _ _ _ Hg).
  rewrite bind_run, (get_run _ _ _ _ d), Htype by done. cbn [from_option id].
  rewrite bind_run, (getitem_run _ _ _ table (VRef l)) by done.
  rewrite bind_run, (get_run _ _ _ _ r) by done.
  rewrite bind_run, (load_global_run _ _ _ Hg).
  rewrite bind_run, (get_run _ _ _ _ d), Htype by done. cbn [from_option id].
  rewrite bind_run, (getitem_run _ _ _ table (VRef l)) by done.
  rewrite bind_run, (get_run _ _ _ _ r) by done.
  rewrite bind_run, (getitem_run _ _ _ d (f_device_id f)) by done.
  rewrite bind_run. unfold set_of_pair at 1. rewrite Hhash.
  rewrite bind_run, (getitem_run _ _ _ d data) by done.
  rewrite bind_run, (getitem_run _ _ _ dd (f_model f)) by done.
  rewrite bind_run, (getitem_run _ _ _ d data) by done.
  rewrite bind_run, (getitem_run _ _ _ dd (f_manufacturer f)) by done.
  rewrite bind_run, (getitem_run _ _ _ d (f_device_name f)) by done.
  rewrite bind_run, (getitem_run _ _ _ d data) by done.
  rewrite bind_run, (getitem_run _ _ _ dd (f_version f)) by done.
  rewrite bind_run, (getitem_run _ _ _ d (f_parentDevice f)) by done.
  rewrite bind_run. unfold alloc at 1.
  reflexivity.
Qed.

(** X16: a device of a type that is no key of the table: the second lookup of
    the table raises. *)
Lemma HiveEntity_init_unknown_type s hive hive_device d f tl table :
  DEVICETYPE_loaded s tl table →
  has_required_keys s hive_device d f →
  (∀ t, f_hiveType f = VStr t → DEVICETYPE_dict !! t = None) →
  ∃ e, HiveEntity_init hive hive_device s = (Raise e, s) ∧
       (e = TypeError ∨ e = KeyError (f_hiveType f)).
Proof.
  intros (Hg & Ht & Hrec) [Hdev Hname Hid Htype Hdid Hdname Hparent _] Hunknown.
  assert (obj_at (heap s) (VRef tl) = Some (ODict table)) as Htab by done.
  unfold HiveEntity_init. cbv zeta.
  rewrite bind_run, (getitem_run _ _ _ d (f_haName f)) by done.
  rewrite bind_run, (getitem_run _ _ _ d (f_hiveID f)) by done.
  rewrite bind_run, (getitem_run _ _ _ d (f_hiveType f)) by done.
  rewrite bind_run. unfold fstring_dash at 1.
  rewrite bind_run, (get_run _ _ _ _ d) by done.
  rewrite bind_run, (load_global_run _ _ _ Hg).
  rewrite bind_run, (getitem_run _ _ _ d (f_hiveType f)) by done.
  rewrite bind_run. unfold get at 1. rewrite Htab. unfold dict_find.
  destruct (hashable (heap s) (f_hiveType f)) eqn:Hhash;
    [|exists TypeError; by split; [|left]].
  assert (match f_hiveType f with
          | VStr s0 => Ok (table !! s0)
          | _ => Ok None
          end = Ok None) as Hfind.
  { destruct (f_hiveType f) as [| | |t| | | | |]; try reflexivity.
    specialize (Hrec t). rewrite (Hunknown t eq_refl) in Hrec.
    rewrite Hrec. reflexivity. }
  rewrite Hfind.
  rewrite bind_run, (load_global_run _ _ _ Hg).
  rewrite bind_run, (get_run _ _ _ _ d), Htype by done. cbn [from_option id].
  rewrite bind_run. unfold getitem at 1. rewrite Htab. unfold dict_find.
  rewrite Hhash, Hfind.
  exists (KeyError (f_hiveType f)). by split; [|right].
Qed.

(** X17: a device whose [device_id] cannot be hashed: building the set of
    identifiers raises. *)
Lemma HiveEntity_init_unhashable_id s hive hive_device d f t tl table :
  DEVICETYPE_loaded s tl table →
  has_required_keys s hive_device d f →
  f_hiveType f = VStr t →
  is_Some (DEVICETYPE_dict !! t) →
  hashable (heap s) (f_device_id f) = false →
  HiveEntity_init hive hive_device s = (Raise TypeError, s).
Proof.
  intros (Hg & Ht & Hrec) [Hdev Hname Hid Htype Hdid Hdname Hparent _]
    Hstr [r Hknown] Hhash.
  specialize (Hrec t). rewrite Hknown in Hrec.
  destruct Hrec as (l & Hl & Hr).
  rewrite Hstr in Htype.
  assert (obj_at (heap s) (VRef tl) = Some (ODict table)) as Htab by done.
  assert (obj_at (heap s) (VRef l) = Some (ODict r)) as Hrecord by done.
  unfold HiveEntity_init. cbv zeta.
  rewrite bind_run, (getitem_run _ _ _ d (f_haName f)) by done.
  rewrite bind_run, (getitem_run _ _ _ d (f_hiveID f)) by done.
  rewrite bind_run, (getitem_run _ _ _ d (VStr t)) by done.
  rewrite bind_run. unfold fstring_dash at 1.
  rewrite bind_run, (get_run _ _ _ _ d) by done.
  rewrite bind_run, (load_global_run _ _ _ Hg).
  rewrite bind_run, (getitem_run _ _ _ d (VStr t)) by done.
  rewrite bind_run, (get_run _ _ _ _ table), Hl by done. cbn [from_option id].
  rewrite bind_run, (load_global_run _ _ _ Hg).
  rewrite bind_run, (get_run _ _ _ _ d), Htype by done. cbn [from_option id].
  rewrite bind_run, (getitem_run _ _ _ table (VRef l)) by done.
  rewrite bind_run, (get_run _ _ _ _ r) by done.
  rewrite bind_run, (load_global_run _ _ _ Hg).
  rewrite bind_run, (get_run _ _ _ _ d), Htype by done. cbn [from_option id].
  rewrite bind_run, (getitem_run _ _ _ table (VRef l)) by done.
  rewrite bind_run, (get_run _ _ _ _ r) by done.
  rewrite bind_run, (getitem_run _ _ _ d (f_device_id f)) by done.
  rewrite bind_run. unfold set_of_pair at 1. by rewrite Hhash.
Qed.

(** C2, amended: for a device dictionary with the required keys whose
    [hiveType] is a key of [DEVICETYPE] and whose [device_id] is hashable,
    [__init__] returns an entity whose name is the dictionary's [haName],
    whose unique id is the formatted [hiveID], a dash and the [hiveType],
    whose entity category is the dictionary's [category] entry ([None]
    when there is none), and whose device info has the identifiers
    [{(DOMAIN, device_id)}], the model, manufacturer and version of
    [deviceData], the [device_name] and [via_device]
    [(DOMAIN, parentDevice)]. *)
Theorem HiveEntity_init_fields s hive hive_device d f t tl table :
  DEVICETYPE_loaded s tl table →
  has_required_keys s hive_device d f →
  f_hiveType f = VStr t →
  is_Some (DEVICETYPE_dict !! t) →
  hashable (heap s) (f_device_id f) = true →
  ∃ e s',
    HiveEntity_init hive hive_device s = (Ok e, s') ∧
    _attr_name e = f_haName f ∧
    _attr_unique_id e = format_value (heap s) (f_hiveID f) +:+ "-" +:+ t ∧
    (∀ i, f_hiveID f = VStr i → _attr_unique_id e = i +:+ "-" +:+ t) ∧
    _attr_entity_category e =
      match d !! "category" with Some c => c | None => VNone end ∧
    _attr_device_info e =
      {| identifiers := [(DOMAIN, f_device_id f)];
         model := f_model f;
         manufacturer := f_manufacturer f;
         name := f_device_name f;
         sw_version := f_version f;
         via_device := (DOMAIN, f_parentDevice f) |}.
Proof.
  intros Hloaded Hkeys Hstr [r Hknown] Hhash.
  destruct (HiveEntity_init_run s hive hive_device d f t tl table r)
    as (l & _ & _ & Hrun); try done.
  eexists _, _. split; [exact Hrun|].
  cbn [_attr_name _attr_unique_id _attr_entity_category _attr_device_info].
  split; [reflexivity|]. split; [reflexivity|]. split.
  { intros i ->. by rewrite format_value_str. }
  split; [|reflexivity].
  by destruct (d !! "category").
Qed.

(** C3, amended: for a device dictionary with the required keys whose
    [hiveType] is a key of [DEVICETYPE] and whose [device_id] is hashable,
    construction succeeds, whatever the other values are; it only
    allocates the entity's attribute dictionary. *)
Theorem HiveEntity_init_succeeds s hive hive_device d f t tl table :
  DEVICETYPE_loaded s tl table →
  has_required_keys s hive_device d f →
  f_hiveType f = VStr t →
  is_Some (DEVICETYPE_dict !! t) →
  hashable (heap s) (f_device_id f) = true →
  ∃ e, HiveEntity_init hive hive_device s = (Ok e, extended s [ODict ∅]).
Proof.
  intros Hloaded Hkeys Hstr [r Hknown] Hhash.
  destruct (HiveEntity_init_run s hive hive_device d f t tl table r)
    as (l & _ & _ & Hrun); try done.
  eexists. exact Hrun.
Qed.

(** C8: for a device whose [hiveType] is a key of [DEVICETYPE] the device
    class attribute is the table's entry itself, a reference to the
    dictionary holding the whole record, and so differs from the
    record's [device_class] field; the state class and the unit are the
    record's [state_class] and [unit] fields ([None] when absent). *)
Theorem HiveEntity_init_device_class s hive hive_device d f t tl table :
  DEVICETYPE_loaded s tl table →
  has_required_keys s hive_device d f →
  f_hiveType f = VStr t →
  is_Some (DEVICETYPE_dict !! t) →
  hashable (heap s) (f_device_id f) = true →
  ∃ e s' l r,
    HiveEntity_init hive hive_device s = (Ok e, s') ∧
    DEVICETYPE_dict !! t = Some r ∧
    table !! t = Some (VRef l) ∧
    heap s' !! l = Some (ODict r) ∧
    _attr_device_class e = VRef l ∧
    _attr_device_class e ≠ default VNone (r !! "device_class") ∧
    _attr_state_class e = default VNone (r !! "state_class") ∧
    _attr_native_unit_of_measurement e = default VNone (r !! "unit").
Proof.
  intros Hloaded Hkeys Hstr [r Hknown] Hhash.
  destruct (HiveEntity_init_run s hive hive_device d f t tl table r)
    as (l & Hl & Hr & Hrun); try done.
  eexists _, _, l, r. split; [exact Hrun|]. cbn.
  repeat split; try done.
  - by apply lookup_app_l_Some.
  - pose proof (record_device_class_scalar t r Hknown) as Hscalar.
    intros Heq. by rewrite <- Heq in Hscalar.
Qed.

End Entity.

(** Runs on the demonstration device. *)

Lemma demo_device_loaded hive_type device_id :
  DEVICETYPE_loaded (demo_device_state hive_type device_id) 26
                    (DEVICETYPE_table 0).
Proof.
  destruct (module_load_loaded empty_state) as (s' & Hrun & Hloaded & _).
  assert (s' = (module_load empty_state).2) as -> by (by rewrite Hrun).
  unfold demo_device_state.
  exact (DEVICETYPE_loaded_app (module_load empty_state).2
           (length (heap empty_state) + length DEVICETYPE)
           (DEVICETYPE_table (length (heap empty_state))) _ Hloaded).
Qed.

Lemma demo_device_keys hive_type device_id :
  has_required_keys (demo_device_state hive_type device_id) (VRef 28)
    (demo_device_dict hive_type device_id) (demo_fields hive_type device_id).
Proof.
  split; try (vm_compute; reflexivity).
  exists (VRef 27),
         (dict_display [("model", VStr "SLR1"); ("manufacturer", VStr "Hive");
                        ("version", VStr "1.0.0")]).
  repeat split; vm_compute; reflexivity.
Defined.

Lemma HiveEntity_init_fields_witness :
  ∃ e s',
    HiveEntity_init VNone (VRef 28)
      (demo_device_state (VStr "contactsensor") (VStr "dev1")) = (Ok e, s') ∧
    _attr_name e = VStr "Lounge" ∧
    _attr_unique_id e = "abc-contactsensor" ∧
    _attr_entity_category e = VNone ∧
    _attr_device_info e =
      {| identifiers := [("hive", VStr "dev1")];
         model := VStr "SLR1";
         manufacturer := VStr "Hive";
         name := VStr "Thermostat";
         sw_version := VStr "1.0.0";
         via_device := ("hive", VStr "hub1") |}.
Proof.
  destruct (HiveEntity_init_fields
              (demo_device_state (VStr "contactsensor") (VStr "dev1"))
              VNone (VRef 28) _ _ "contactsensor" 26 (DEVICETYPE_table 0)
              (demo_device_loaded _ _) (demo_device_keys _ _))
    as (e & s' & Hrun & Hname & _ & Huid & Hcat & Hinfo).
  - reflexivity.
  - vm_compute. by eexists.
  - vm_compute; reflexivity.
  - exists e, s'. split; [exact Hrun|]. split; [exact Hname|].
    split; [exact (Huid "abc" eq_refl)|]. split; [|exact Hinfo].
    rewrite Hcat. vm_compute; reflexivity.
Defined.

(** The claim without the condition on the type fails: ["thermostat"] is
    no key of the table, and construction raises at the second lookup. *)
Lemma HiveEntity_init_fields_counterexample :
  has_required_keys (demo_device_state (VStr "thermostat") (VStr "dev1"))
    (VRef 28) (demo_device_dict (VStr "thermostat") (VStr "dev1"))
    (demo_fields (VStr "thermostat") (VStr "dev1")) ∧
  HiveEntity_init VNone (VRef 28)
    (demo_device_state (VStr "thermostat") (VStr "dev1"))
    = (Raise (KeyError (VStr "thermostat")),
       demo_device_state (VStr "thermostat") (VStr "dev1")) ∧
  ¬ ∃ e s',
      HiveEntity_init VNone (VRef 28)
        (demo_device_state (VStr "thermostat") (VStr "dev1")) = (Ok e, s') ∧
      _attr_name e = VStr "Lounge" ∧
      _attr_unique_id e = "abc-thermostat".
Proof.
  split; [apply demo_device_keys|].
  assert (HiveEntity_init VNone (VRef 28)
            (demo_device_state (VStr "thermostat") (VStr "dev1"))
          = (Raise (KeyError (VStr "thermostat")),
             demo_device_state (VStr "thermostat") (VStr "dev1"))) as Hrun
    by (vm_compute; reflexivity).
  split; [exact Hrun|].
  intros (e & s' & Hok & _). rewrite Hrun in Hok. discriminate.
Qed.

Lemma HiveEntity_init_succeeds_witness :
  ∃ e,
    HiveEntity_init VNone (VRef 28)
      (demo_device_state (VStr "heating") (VInt 7))
    = (Ok e, extended (demo_device_state (VStr "heating") (VInt 7)) [ODict ∅]).
Proof.
  apply (HiveEntity_init_succeeds
           (demo_device_state (VStr "heating") (VInt 7))
           VNone (VRef 28) _ _ "heating" 26 (DEVICETYPE_table 0)
           (demo_device_loaded _ _) (demo_device_keys _ _)).
  - reflexivity.
  - vm_compute. by eexists.
  - vm_compute; reflexivity.
Defined.

(** Construction does validate two values: a camera is no known type, and
    a dictionary (here the device data itself) cannot be a device id. *)
Lemma HiveEntity_init_succeeds_counterexample :
  (has_required_keys (demo_device_state (VStr "camera") (VStr "dev1"))
     (VRef 28) (demo_device_dict (VStr "camera") (VStr "dev1"))
     (demo_fields (VStr "camera") (VStr "dev1")) ∧
   (HiveEntity_init VNone (VRef 28)
      (demo_device_state (VStr "camera") (VStr "dev1"))).1
     = Raise (KeyError (VStr "camera"))) ∧
  (has_required_keys (demo_device_state (VStr "heating") (VRef 27))
     (VRef 28) (demo_device_dict (VStr "heating") (VRef 27))
     (demo_fields (VStr "heating") (VRef 27)) ∧
   (HiveEntity_init VNone (VRef 28)
      (demo_device_state (VStr "heating") (VRef 27))).1
     = Raise TypeError).
Proof.
  split; (split; [apply demo_device_keys | vm_compute; reflexivity]).
Qed.

Lemma HiveEntity_init_device_class_witness :
  ∃ e s' r,
    HiveEntity_init VNone (VRef 28)
      (demo_device_state (VStr "contactsensor") (VStr "dev1")) = (Ok e, s') ∧
    _attr_device_class e = VRef 0 ∧
    heap s' !! 0 = Some (ODict r) ∧
    r !! "device_class" = Some (VBinarySensorDeviceClass OPENING) ∧
    _attr_state_class e = VNone ∧
    _attr_native_unit_of_measurement e = VNone.
Proof.
  destruct (HiveEntity_init_device_class
              (demo_device_state (VStr "contactsensor") (VStr "dev1"))
              VNone (VRef 28) _ _ "contactsensor" 26 (DEVICETYPE_table 0)
              (demo_device_loaded _ _) (demo_device_keys _ _))
    as (e & s' & l & r & Hrun & Hr & Hl & Hheap & Hdc & _ & Hsc & Hunit).
  - reflexivity.
  - vm_compute. by eexists.
  - vm_compute; reflexivity.
  - exists e, s', r.
    assert (l = 0) as -> by (vm_compute in Hl; congruence).
    split; [exact Hrun|]. split; [exact Hdc|]. split; [exact Hheap|].
    assert (Some r = Some (dict_display
              [("device_class", VBinarySensorDeviceClass OPENING)])) as [= ->]
      by (rewrite <- Hr; vm_compute; reflexivity).
    rewrite Hsc, Hunit. repeat split; vm_compute; reflexivity.
Defined.

(** ** What the operations leave alone *)

Lemma grows_ret {A} (a : A) : grows (mret a : M A).
Proof. intros s. exists [], []. by rewrite !app_nil_r. Qed.

Lemma grows_raise {A} e : grows (raise e : M A).
Proof. intros s. exists [], []. by rewrite !app_nil_r. Qed.

Lemma grows_bind {A B} (m : M A) (f : A → M B) :
  grows m → (∀ a, grows (f a)) → grows (m ≫= f).
Proof.
  intros Hm Hf s. rewrite bind_run.
  destruct (Hm s) as (news & evs & Hh & Hg & Ht).
  destruct (m s) as [[a|e] s1]; cbn [snd] in *.
  - destruct (Hf a s1) as (news' & evs' & Hh' & Hg' & Ht').
    exists (news ++ news'), (evs ++ evs').
    by rewrite Hh', Hg', Ht', Hh, Hg, Ht, !app_assoc.
  - by exists news, evs.
Qed.

Lemma grows_unchanged {A} (m : M A) : (∀ s, (m s).2 = s) → grows m.
Proof.
  intros Hm s. exists [], []. by rewrite Hm, !app_nil_r.
Qed.

Lemma grows_alloc o : grows (alloc o).
Proof. intros s. exists [o], []. by rewrite app_nil_r. Qed.

Lemma grows_emit e : grows (emit e).
Proof. intros s. exists [], [e]. by rewrite app_nil_r. Qed.

Lemma grows_getitem c k : grows (getitem c k).
Proof.
  apply grows_unchanged. intros s. unfold getitem.
  destruct (obj_at (heap s) c) as [[d| | |]|]; try reflexivity.
  by destruct (dict_find (heap s) d k) as [[v|]|e].
Qed.

Lemma grows_get c k dflt : grows (get c k dflt).
Proof.
  apply grows_unchanged. intros s. unfold get.
  destruct (obj_at (heap s) c) as [[d| | |]|]; try reflexivity.
  by destruct (dict_find (heap s) d k) as [[v|]|e].
Qed.

Lemma grows_contains c k : grows (contains c k).
Proof.
  apply grows_unchanged. intros s. unfold contains.
  by destruct (obj_at (heap s) c) as [[d| | |]|].
Qed.

Lemma grows_load_global name : grows (load_global name).
Proof.
  apply grows_unchanged. intros s. unfold load_global.
  by destruct (module_globals s !! name).
Qed.

Lemma grows_truth v : grows (truth v).
Proof. by apply grows_unchanged. Qed.

Lemma grows_dict_copy c : grows (dict_copy c).
Proof.
  intros s. unfold dict_copy.
  destruct (obj_at (heap s) c) as [[d| | |]|];
    try (exists [], []; by rewrite !app_nil_r).
  apply grows_alloc.
Qed.

Lemma grows_try_except {A} (m : M A) h :
  grows m → (∀ e k, h e = Some k → grows k) → grows (try_except m h).
Proof.
  intros Hm Hh s. unfold try_except.
  destruct (Hm s) as (news & evs & Hheap & Hg & Ht).
  destruct (m s) as [[a|e] s1]; cbn [snd] in *.
  - by exists news, evs.
  - destruct (h e) as [k|] eqn:Hk; [|by exists news, evs].
    destruct (Hh e k Hk s1) as (news' & evs' & Hh' & Hg' & Ht').
    exists (news ++ news'), (evs ++ evs').
    by rewrite Hh', Hg', Ht', Hheap, Hg, Ht, !app_assoc.
Qed.

Lemma silent_ret {A} (a : A) : silent (mret a : M A).
Proof. by intros s. Qed.

Lemma silent_bind {A B} (m : M A) (f : A → M B) :
  silent m → (∀ a, silent (f a)) → silent (m ≫= f).
Proof.
  intros Hm Hf s. rewrite bind_run. specialize (Hm s).
  destruct (m s) as [[a|e] s1]; cbn [snd] in *; [|done].
  by rewrite Hf.
Qed.

Lemma silent_unchanged {A} (m : M A) : (∀ s, (m s).2 = s) → silent m.
Proof. intros Hm s. by rewrite Hm. Qed.

Lemma silent_alloc o : silent (alloc o).
Proof. by intros s. Qed.

Lemma getitem_unchanged c k s : (getitem c k s).2 = s.
Proof.
  unfold getitem.
  destruct (obj_at (heap s) c) as [[d| | |]|]; try reflexivity.
  by destruct (dict_find (heap s) d k) as [[v|]|e].
Qed.

Lemma get_unchanged c k dflt s : (get c k dflt s).2 = s.
Proof.
  unfold get.
  destruct (obj_at (heap s) c) as [[d| | |]|]; try reflexivity.
  by destruct (dict_find (heap s) d k) as [[v|]|e].
Qed.

Lemma load_global_unchanged name s : (load_global name s).2 = s.
Proof. unfold load_global. by destruct (module_globals s !! name). Qed.

Section Frames.
Context `{Host}.

Lemma grows_fstring_dash a b : grows (fstring_dash a b).
Proof. by apply grows_unchanged. Qed.

Lemma grows_set_of_pair d v : grows (set_of_pair d v).
Proof.
  apply grows_unchanged. intros s. unfold set_of_pair.
  by destruct (hashable (heap s) v).
Qed.

Lemma set_of_pair_unchanged d v s : (set_of_pair d v s).2 = s.
Proof. unfold set_of_pair. by destruct (hashable (heap s) v). Qed.

Lemma grows_HiveEntity_init hive hive_device :
  grows (HiveEntity_init hive hive_device).
Proof.
  unfold HiveEntity_init. cbv zeta.
  repeat (apply grows_bind; [|intros ?]);
    first [ apply grows_getitem | apply grows_get | apply grows_load_global
          | apply grows_fstring_dash | apply grows_set_of_pair
          | apply grows_alloc | apply grows_ret ].
Qed.

Lemma silent_HiveEntity_init hive hive_device :
  silent (HiveEntity_init hive hive_device).
Proof.
  unfold HiveEntity_init. cbv zeta.
  repeat (apply silent_bind; [|intros ?]);
    first [ apply silent_unchanged; intros ?;
            first [ apply getitem_unchanged | apply get_unchanged
                  | apply load_global_unchanged | apply set_of_pair_unchanged
                  | reflexivity ]
          | apply silent_alloc | apply silent_ret ].
Qed.

End Frames.

(** ** More on the entity base class *)

Lemma getitem_inv c (k : string) s v s' :
  getitem c (VStr k) s = (Ok v, s') →
  s' = s ∧ ∃ d, obj_at (heap s) c = Some (ODict d) ∧ d !! k = Some v.
Proof.
  unfold getitem, dict_find.
  destruct (obj_at (heap s) c) as [[d| | |]|]; try discriminate.
  cbn. destruct (d !! k) as [v'|] eqn:Hk; [|discriminate].
  intros [= <- <-]. split; [done|]. by exists d.
Qed.

Lemma get_inv c (k : string) dflt s v s' :
  get c (VStr k) dflt s = (Ok v, s') →
  s' = s ∧ ∃ d, obj_at (heap s) c = Some (ODict d) ∧
                v = default dflt (d !! k).
Proof.
  unfold get, dict_find.
  destruct (obj_at (heap s) c) as [[d| | |]|]; try discriminate.
  cbn. destruct (d !! k) as [v'|] eqn:Hk; intros [= <- <-];
    (split; [done|]); exists d; rewrite ?Hk; split; reflexivity.
Qed.

Lemma load_global_inv name s v s' :
  load_global name s = (Ok v, s') → s' = s ∧ module_globals s !! name = Some v.
Proof.
  unfold load_global. destruct (module_globals s !! name); [|discriminate].
  by intros [= <- <-].
Qed.

(** A successful lookup of a value in the table: the value is a string
    and a key. *)
Lemma getitem_table_inv c k s v s' table :
  obj_at (heap s) c = Some (ODict table) →
  getitem c k s = (Ok v, s') →
  s' = s ∧ hashable (heap s) k = true ∧
  ∃ t, k = VStr t ∧ table !! t = Some v.
Proof.
  intros Hc. unfold getitem, dict_find. rewrite Hc.
  destruct (hashable (heap s) k); [|discriminate].
  destruct k as [| | |t| | | | |]; try discriminate.
  destruct (table !! t) as [v'|] eqn:Ht; [|discriminate].
  intros [= <- <-]. split; [done|]. split; [done|]. by exists t.
Qed.

Lemma has_required_keys_app s hive_device d f news :
  has_required_keys s hive_device d f →
  has_required_keys (extended s news) hive_device d f.
Proof.
  intros [Hdev Hname Hid Htype Hdid Hdname Hparent
    (data & dd & Hdata & Hdd & Hrest)].
  split; try done.
  - by apply obj_at_app_l.
  - exists data, dd. split; [done|]. split; [|done]. by apply obj_at_app_l.
Qed.

Lemma hashable_app h news v :
  (∀ l, v = VRef l → l < length h) →
  hashable (h ++ news) v = hashable h v.
Proof.
  intros Hv. unfold hashable. destruct v; try reflexivity.
  cbn. by rewrite lookup_app_l by (by apply Hv).
Qed.



(** Inversion of one successful step of a run kept in hypothesis [H]. *)
Tactic Notation "getitem_in" hyp(H) "key" constr(k) "of" constr(c)
    "as" ident(v) ident(Hd) ident(Hk) :=
  rewrite bind_run in H;
  let E := fresh "E" in
  let d' := fresh "d" in
  destruct (getitem c (VStr k) _) as [[v|?] ?] eqn:E in H;
    [|discriminate H];
  apply getitem_inv in E as [-> (d' & Hd & Hk)].

Ltac same_dict Hdev Hd :=
  rewrite Hdev in Hd; injection Hd as <-.

Section Entity_extra.
Context `{Host}.


(** X14: construction succeeds only for a device dictionary that has the
    required keys, a [hiveType] that is a key of the table and a hashable
    [device_id]. *)
Theorem HiveEntity_init_requires session hive_device s tl table entity s' :
  DEVICETYPE_loaded s tl table →
  HiveEntity_init session hive_device s = (Ok entity, s') →
  ∃ d f t,
    has_required_keys s hive_device d f ∧
    f_hiveType f = VStr t ∧
    is_Some (DEVICETYPE_dict !! t) ∧
    hashable (heap s) (f_device_id f) = true.
Proof.
  intros (Hg & Ht & Hrec) Hrun.
  unfold HiveEntity_init in Hrun. cbv zeta in Hrun.
  getitem_in Hrun key "haName" of hive_device as name Hdev Hname.
  getitem_in Hrun key "hiveID" of hive_device as hid Hd Hid. same_dict Hdev Hd.
  getitem_in Hrun key "hiveType" of hive_device as htype Hd Htype. same_dict Hdev Hd.
  rewrite bind_run in Hrun. unfold fstring_dash at 1 in Hrun.
  rewrite bind_run in Hrun.
  destruct (get hive_device (VStr "category") VNone s) as [[cat|?] s1] eqn:E;
    [|discriminate].
  apply get_inv in E as [-> _].
  rewrite bind_run, (load_global_run _ _ _ Hg) in Hrun.
  getitem_in Hrun key "hiveType" of hive_device as htype2 Hd Htype2.
  same_dict Hdev Hd.
  assert (htype2 = htype) as -> by congruence.
  rewrite bind_run in Hrun.
  destruct (get (VRef tl) htype VNone s) as [[dc|?] s1] eqn:E; [|discriminate].
  pose proof (get_unchanged (VRef tl) htype VNone s) as Hs1.
  rewrite E in Hs1. cbn [snd] in Hs1. subst s1. clear E.
  rewrite bind_run, (load_global_run _ _ _ Hg) in Hrun.
  rewrite bind_run, (get_run _ _ _ _ d), Htype in Hrun by done.
  cbn [from_option id] in Hrun.
  rewrite bind_run in Hrun.
  destruct (getitem (VRef tl) htype s) as [[record|?] s1] eqn:E; [|discriminate].
  apply (getitem_table_inv _ _ _ _ _ table) in E as (-> & _ & t & -> & Hl);
    [|done].
  assert (is_Some (DEVICETYPE_dict !! t)) as Hknown.
  { specialize (Hrec t). destruct (DEVICETYPE_dict !! t); [by eexists|].
    congruence. }
  rewrite bind_run in Hrun.
  destruct (get record (VStr "state_class") VNone s) as [[sc|?] s1] eqn:E;
    [|discriminate].
  apply get_inv in E as [-> _].
  rewrite bind_run, (load_global_run _ _ _ Hg) in Hrun.
  rewrite bind_run, (get_run _ _ _ _ d), Htype in Hrun by done.
  cbn [from_option id] in Hrun.
  rewrite bind_run, (getitem_run _ _ _ table record) in Hrun by done.
  rewrite bind_run in Hrun.
  destruct (get record (VStr "unit") VNone s) as [[unit|?] s1] eqn:E;
    [|discriminate].
  apply get_inv in E as [-> _].
  getitem_in Hrun key "device_id" of hive_device as did Hd Hdid. same_dict Hdev Hd.
  rewrite bind_run in Hrun. unfold set_of_pair at 1 in Hrun.
  destruct (hashable (heap s) did) eqn:Hhash; [|discriminate].
  getitem_in Hrun key "deviceData" of hive_device as data Hd Hdata. same_dict Hdev Hd.
  getitem_in Hrun key "model" of data as mdl Hdd Hmodel.
  rewrite bind_run, (getitem_run _ _ _ d data) in Hrun by done.
  getitem_in Hrun key "manufacturer" of data as mfr Hd Hmfr. same_dict Hdd Hd.
  getitem_in Hrun key "device_name" of hive_device as dname Hd Hdname. same_dict Hdev Hd.
  rewrite bind_run, (getitem_run _ _ _ d data) in Hrun by done.
  getitem_in Hrun key "version" of data as ver Hd Hver. same_dict Hdd Hd.
  getitem_in Hrun key "parentDevice" of hive_device as parent Hd Hparent.
  same_dict Hdev Hd.
  exists d,
    {| f_haName := name; f_hiveID := hid; f_hiveType := VStr t;
       f_device_id := did; f_device_name := dname; f_parentDevice := parent;
       f_model := mdl; f_manufacturer := mfr; f_version := ver |}, t.
  clear Hrec Hrun.
  split; [|split; [reflexivity|split; [exact Hknown|exact Hhash]]].
  split; [exact Hdev | exact Hname | exact Hid | exact Htype | exact Hdid
         | exact Hdname | exact Hparent |].
  exists data, d0.
  split; [exact Hdata|]. split; [exact Hdd|]. split; [exact Hmodel|].
  split; [exact Hmfr|exact Hver].
Qed.

(** X15: two entities built for the same device share the table's record as
    their device class (the same object) and have distinct attribute
    dictionaries. *)
Theorem HiveEntity_init_twice session hive_device s tl table d f t :
  DEVICETYPE_loaded s tl table →
  has_required_keys s hive_device d f →
  f_hiveType f = VStr t →
  is_Some (DEVICETYPE_dict !! t) →
  hashable (heap s) (f_device_id f) = true →
  (∀ l, f_device_id f = VRef l → l < length (heap s)) →
  ∃ e1 e2 s1 s2,
    HiveEntity_init session hive_device s = (Ok e1, s1) ∧
    HiveEntity_init session hive_device s1 = (Ok e2, s2) ∧
    _attr_device_class e1 = _attr_device_class e2 ∧
    table !! t = Some (_attr_device_class e1) ∧
    attributes e1 ≠ attributes e2 ∧
    obj_at (heap s2) (attributes e1) = Some (ODict ∅) ∧
    obj_at (heap s2) (attributes e2) = Some (ODict ∅).
Proof.
  intros Hloaded Hkeys Hstr [r Hknown] Hhash Hvalid.
  destruct (HiveEntity_init_run s session hive_device d f t tl table r
              Hloaded Hkeys Hstr Hknown Hhash)
    as (l & Hl & Hr & Hrun1).
  set (s1 := extended s [ODict ∅]).
  assert (hashable (heap s1) (f_device_id f) = true) as Hhash1.
  { subst s1. cbn [extended heap]. rewrite hashable_app; assumption. }
  destruct (HiveEntity_init_run s1 session hive_device d f t tl table r
              (DEVICETYPE_loaded_app _ _ _ _ Hloaded)
              (has_required_keys_app _ _ _ _ _ Hkeys) Hstr Hknown Hhash1)
    as (l' & Hl' & Hr' & Hrun2).
  assert (l' = l) as -> by congruence.
  clear Hloaded Hknown.
  eexists _, _, _, _. split; [exact Hrun1|]. split; [exact Hrun2|].
  cbn [_attr_device_class attributes _attr_unique_id heap extended].
  split; [reflexivity|]. split; [exact Hl|]. split.
  { subst s1. cbn [extended heap]. rewrite length_app. cbn. intros [=]. lia. }
  split.
  { subst s1. cbn [extended heap obj_at]. rewrite <- app_assoc.
    by rewrite lookup_app_length. }
  subst s1. cbn [extended heap obj_at].
  by rewrite lookup_app_length.
Qed.

End Entity_extra.

(** ** The component setup *)

Lemma contains_run c k s d :
  obj_at (heap s) c = Some (ODict d) →
  contains c k s = (Ok (bool_decide (is_Some (d !! k))), s).
Proof. intros Hc. unfold contains. by rewrite Hc. Qed.

Lemma obj_at_insert_app_ne h l o news v o' :
  v ≠ VRef l → obj_at h v = Some o' →
  obj_at (<[l := o]> h ++ news) v = Some o'.
Proof. intros Hne Hv. apply obj_at_app_l. by apply obj_at_insert_ne. Qed.

Section Setup_extra.
Context `{Host}.

Lemma async_setup_start hass config s lh hd :
  hass_data hass = VRef lh →
  heap s !! lh = Some (ODict hd) →
  async_setup hass config s
    = async_setup_import config (reset_sessions s lh hd).
Proof.
  intros Hdata Hlh. unfold async_setup, async_setup_import, reset_sessions.
  rewrite bind_run. unfold alloc at 1.
  rewrite Hdata.
  rewrite bind_run, (setitem_run _ _ _ _ hd)
    by (cbn [heap]; by apply lookup_app_l_Some).
  cbn [heap module_globals trace].
  rewrite insert_app_l by (by eapply lookup_lt_Some).
  reflexivity.
Qed.

Lemma grows_async_setup_import config : grows (async_setup_import config).
Proof.
  unfold async_setup_import.
  apply grows_bind; [apply grows_contains|intros present].
  destruct (negb present); [apply grows_ret|].
  apply grows_bind; [apply grows_getitem|intros conf].
  apply grows_bind; [by apply grows_unchanged|intros entries].
  destruct entries; [|apply grows_ret].
  repeat (apply grows_bind; [|intros ?]);
    first [ apply grows_getitem | apply grows_alloc | apply grows_emit
          | apply grows_ret ].
Qed.

(** X1: whatever the configuration and whatever the outcome, when [hass.data]
    is a dictionary [async_setup] has replaced [hass.data[DOMAIN]] by a
    new empty dictionary: sessions stored before are no longer reachable
    from it.  The other entries of [hass.data] and all other objects are
    kept, and the module globals are untouched. *)
Theorem async_setup_resets_sessions hass config s lh hd :
  hass_data hass = VRef lh →
  heap s !! lh = Some (ODict hd) →
  let s' := (async_setup hass config s).2 in
  let sessions := VRef (length (heap s)) in
  obj_at (heap s) sessions = None ∧
  heap s' !! lh = Some (ODict (<[DOMAIN := sessions]> hd)) ∧
  obj_at (heap s') sessions = Some (ODict ∅) ∧
  (∀ l, l ≠ lh → l < length (heap s) → heap s' !! l = heap s !! l) ∧
  module_globals s' = module_globals s.
Proof.
  intros Hdata Hlh s' sessions. subst s'.
  rewrite (async_setup_start _ _ _ _ _ Hdata Hlh).
  destruct (grows_async_setup_import config (reset_sessions s lh hd))
    as (news & evs & -> & -> & _).
  pose proof (lookup_lt_Some _ _ _ Hlh) as Hlt.
  unfold reset_sessions; cbn [heap module_globals obj_at].
  split; [apply lookup_ge_None; lia|].
  split.
  { apply lookup_app_l_Some, lookup_app_l_Some.
    by apply list_lookup_insert_eq. }
  split.
  { apply lookup_app_l_Some. by rewrite lookup_insert_app_length. }
  split; [|done].
  intros l Hne Hl.
  rewrite <- app_assoc, lookup_app_l by (by rewrite length_insert).
  by apply list_lookup_insert_ne.
Qed.

(** X2: a configuration without a [DOMAIN] section: [async_setup] returns
    [True] right after the reset; it starts no import flow. *)
Theorem async_setup_not_configured hass config s lh hd cd :
  hass_data hass = VRef lh →
  heap s !! lh = Some (ODict hd) →
  config ≠ VRef lh →
  obj_at (heap s) config = Some (ODict cd) →
  cd !! DOMAIN = None →
  async_setup hass config s = (Ok true, reset_sessions s lh hd).
Proof.
  intros Hdata Hlh Hne Hconfig Hdom.
  rewrite (async_setup_start _ _ _ _ _ Hdata Hlh).
  unfold async_setup_import.
  rewrite bind_run, (contains_run _ _ _ cd)
    by (by apply obj_at_insert_app_ne).
  rewrite Hdom. reflexivity.
Qed.

(** X3: a configured domain for which the host already has entries:
    [async_setup] returns [True] and starts no import flow. *)
Theorem async_setup_already_imported hass config s lh hd cd conf :
  hass_data hass = VRef lh →
  heap s !! lh = Some (ODict hd) →
  config ≠ VRef lh →
  obj_at (heap s) config = Some (ODict cd) →
  cd !! DOMAIN = Some conf →
  async_entries (reset_sessions s lh hd) DOMAIN ≠ [] →
  async_setup hass config s = (Ok true, reset_sessions s lh hd).
Proof.
  intros Hdata Hlh Hne Hconfig Hdom Hentries.
  rewrite (async_setup_start _ _ _ _ _ Hdata Hlh).
  unfold async_setup_import.
  rewrite bind_run, (contains_run _ _ _ cd)
    by (by apply obj_at_insert_app_ne).
  rewrite Hdom. cbn [negb bool_decide].
  rewrite bool_decide_eq_true_2 by (by eexists). cbn [negb].
  rewrite bind_run, (getitem_run _ _ _ cd conf)
    by (done || by apply obj_at_insert_app_ne).
  rewrite bind_run. unfold call_async_entries at 1.
  by destruct (async_entries (reset_sessions s lh hd) DOMAIN).
Qed.

(** X4: a configured domain without entries: [async_setup] returns [True]
    and creates exactly one task, the import flow for [DOMAIN], whose
    context is [{"source": SOURCE_IMPORT}] and whose data holds the user
    name and the password of the section and nothing else of it. *)
Theorem async_setup_starts_import hass config s lh hd cd conf cfd username password :
  hass_data hass = VRef lh →
  heap s !! lh = Some (ODict hd) →
  config ≠ VRef lh →
  obj_at (heap s) config = Some (ODict cd) →
  cd !! DOMAIN = Some conf →
  conf ≠ VRef lh →
  obj_at (heap s) conf = Some (ODict cfd) →
  cfd !! CONF_USERNAME = Some username →
  cfd !! CONF_PASSWORD = Some password →
  async_entries (reset_sessions s lh hd) DOMAIN = [] →
  let n := length (heap s) in
  async_setup hass config s =
    (Ok true,
     {| heap := heap (reset_sessions s lh hd) ++
                [ODict {["source" := VStr SOURCE_IMPORT]};
                 ODict (<[CONF_PASSWORD := password]>
                          {[CONF_USERNAME := username]})];
        module_globals := module_globals s;
        trace := trace s ++
                 [CreateTask (FlowInit DOMAIN (VRef (n + 1)) (VRef (n + 2)))] |}).
Proof.
  intros Hdata Hlh Hne Hconfig Hdom Hneconf Hconf Huser Hpass Hentries n.
  rewrite (async_setup_start _ _ _ _ _ Hdata Hlh).
  unfold async_setup_import.
  rewrite bind_run, (contains_run _ _ _ cd)
    by (by apply obj_at_insert_app_ne).
  rewrite bool_decide_eq_true_2 by (by eexists). cbn [negb].
  rewrite bind_run, (getitem_run _ _ _ cd conf)
    by (done || by apply obj_at_insert_app_ne).
  rewrite bind_run. unfold call_async_entries at 1. rewrite Hentries.
  rewrite bind_run. unfold alloc at 1.
  rewrite bind_run, (getitem_run _ _ _ cfd username)
    by (done || (cbn [heap]; apply obj_at_app_l;
                 by apply obj_at_insert_app_ne)).
  rewrite bind_run, (getitem_run _ _ _ cfd password)
    by (done || (cbn [heap]; apply obj_at_app_l;
                 by apply obj_at_insert_app_ne)).
  rewrite bind_run. unfold alloc at 1.
  rewrite bind_run. unfold emit at 1.
  unfold reset_sessions. cbn [heap module_globals trace].
  rewrite !length_app, length_insert. cbn [length].
  rewrite <- !app_assoc. cbn [app].
  replace (length (heap s) + 1 + 1) with (n + 2) by (subst n; lia).
  reflexivity.
Qed.

(** X5: a configured domain whose section lacks the user name: [async_setup]
    raises [KeyError] and creates no task; the sessions have been reset
    all the same. *)
Theorem async_setup_missing_username hass config s lh hd cd conf cfd :
  hass_data hass = VRef lh →
  heap s !! lh = Some (ODict hd) →
  config ≠ VRef lh →
  obj_at (heap s) config = Some (ODict cd) →
  cd !! DOMAIN = Some conf →
  conf ≠ VRef lh →
  obj_at (heap s) conf = Some (ODict cfd) →
  cfd !! CONF_USERNAME = None →
  async_entries (reset_sessions s lh hd) DOMAIN = [] →
  ∃ s', async_setup hass config s
          = (Raise (KeyError (VStr CONF_USERNAME)), s') ∧
        trace s' = trace s ∧
        heap s' = heap (reset_sessions s lh hd) ++
                  [ODict {["source" := VStr SOURCE_IMPORT]}].
Proof.
  intros Hdata Hlh Hne Hconfig Hdom Hneconf Hconf Huser Hentries.
  rewrite (async_setup_start _ _ _ _ _ Hdata Hlh).
  unfold async_setup_import.
  rewrite bind_run, (contains_run _ _ _ cd)
    by (by apply obj_at_insert_app_ne).
  rewrite bool_decide_eq_true_2 by (by eexists). cbn [negb].
  rewrite bind_run, (getitem_run _ _ _ cd conf)
    by (done || by apply obj_at_insert_app_ne).
  rewrite bind_run. unfold call_async_entries at 1. rewrite Hentries.
  rewrite bind_run. unfold alloc at 1.
  rewrite bind_run, (getitem_missing _ _ _ cfd)
    by (done || (cbn [heap]; apply obj_at_app_l;
                 by apply obj_at_insert_app_ne)).
  eexists. split; [reflexivity|]. by cbn.
Qed.

(** X6: [async_setup] makes the state ready for [async_setup_entry]: after
    it, whatever its outcome, the sessions dictionary exists and is
    empty, and an entry whose data and options are dictionaries can be
    set up. *)
Theorem async_setup_then_ready hass config entry s lh hd dd od :
  hass_data hass = VRef lh →
  heap s !! lh = Some (ODict hd) →
  entry_data entry ≠ VRef lh →
  entry_options entry ≠ VRef lh →
  obj_at (heap s) (entry_data entry) = Some (ODict dd) →
  obj_at (heap s) (entry_options entry) = Some (ODict od) →
  setup_ready (async_setup hass config s).2 hass entry dd od
              (length (heap s)) ∅.
Proof.
  intros Hdata Hlh Hned Hneo Hd Ho.
  rewrite (async_setup_start _ _ _ _ _ Hdata Hlh).
  destruct (grows_async_setup_import config (reset_sessions s lh hd))
    as (news & evs & Hheap & _ & _).
  pose proof (lookup_lt_Some _ _ _ Hlh) as Hlt.
  split; rewrite Hheap; unfold reset_sessions; cbn [heap].
  - apply obj_at_app_l. by apply obj_at_insert_app_ne.
  - apply obj_at_app_l. by apply obj_at_insert_app_ne.
  - exists (<[DOMAIN := VRef (length (heap s))]> hd).
    rewrite Hdata. cbn [obj_at]. split.
    { apply lookup_app_l_Some, lookup_app_l_Some.
      by apply list_lookup_insert_eq. }
    split; [apply lookup_insert_eq|].
    apply lookup_app_l_Some. by rewrite lookup_insert_app_length.
Qed.

End Setup_extra.

(** ** More on setting up and unloading a config entry *)

Lemma forwarded_sublist h dm items :
  forwarded h dm items `sublist_of` items.*1.
Proof.
  unfold forwarded. induction items as [|[ha hv] items IH]; [constructor|].
  cbn [List.filter fmap list_fmap fst snd].
  destruct (truthy h (default VNone (dm !! hv))); cbn [map fst].
  - by apply sublist_skip.
  - by apply sublist_cons.
Qed.

Lemma forwarded_empty h items : forwarded h ∅ items = [].
Proof.
  unfold forwarded. induction items as [|[ha hv] items IH]; [done|].
  cbn [List.filter snd]. by rewrite lookup_empty.
Qed.

Section Entry_extra.
Context `{Host}.

Lemma prepared_sessions s hass entry dd od ls sd news :
  setup_ready s hass entry dd od ls sd →
  (heap (prepared s hass entry dd od ls sd) ++ news) !! ls
    = Some (ODict (<[entry_id entry := VRef (length (heap s))]> sd)).
Proof.
  intros [_ _ (hd & _ & _ & Hs)].
  unfold prepared; cbn [heap].
  apply lookup_app_l_Some, lookup_app_l_Some, list_lookup_insert_eq.
  by eapply lookup_lt_Some.
Qed.

Lemma prepared_kept s hass entry dd od ls sd news l :
  l ≠ ls → l < length (heap s) →
  (heap (prepared s hass entry dd od ls sd) ++ news) !! l = heap s !! l.
Proof.
  intros Hne Hl. unfold prepared; cbn [heap].
  rewrite <- app_assoc, lookup_app_l by (by rewrite length_insert).
  by apply list_lookup_insert_ne.
Qed.


(** X10: when the bootstrap call raises, setup creates no task; it logs
    one error when the exception is an [HTTPException] and nothing
    otherwise. *)
Theorem async_setup_entry_failure_trace s hass entry dd od ls sd news e :
  setup_ready s hass entry dd od ls sd →
  startSession (prepared s hass entry dd od ls sd)
               (VRef (length (heap s))) (VRef (length (heap s) + 1))
    = (news, Raise e) →
  trace (async_setup_entry hass entry s).2 =
    trace s ++
    match e with
    | HTTPException _ =>
        [LogError "Could not connect to the internet: %s" e]
    | _ => []
    end.
Proof.
  intros Hready Hcall.
  rewrite (async_setup_entry_prepared _ _ _ _ _ _ _ Hready).
  rewrite (bootstrap_raise _ _ _ _ _ Hcall).
  destruct e; cbn [snd trace extended prepared]; by rewrite ?app_nil_r.
Qed.

(** X9: when the bootstrap call returns something that is no dictionary
    (such as [None]) and there is a platform to look up, setup raises
    [AttributeError] at the first lookup: no task is created, and the
    session stays stored. *)
Theorem async_setup_entry_bad_devices s hass entry dd od ls sd news devices :
  setup_ready s hass entry dd od ls sd →
  let s1 := prepared s hass entry dd od ls sd in
  startSession s1 (VRef (length (heap s))) (VRef (length (heap s) + 1))
    = (news, Ok devices) →
  (∀ dm, obj_at (heap s1 ++ news) devices ≠ Some (ODict dm)) →
  PLATFORM_LOOKUP ≠ [] →
  async_setup_entry hass entry s = (Raise AttributeError, extended s1 news).
Proof.
  intros Hready s1 Hcall Hdev Hlookup.
  rewrite (async_setup_entry_prepared _ _ _ _ _ _ _ Hready). fold s1.
  unfold bootstrap. rewrite bind_run.
  unfold try_except, call_startSession. rewrite Hcall.
  rewrite bind_run.
  destruct PLATFORM_LOOKUP as [|[ha hv] items]; [done|].
  cbn [forward_platforms]. rewrite bind_run. unfold get at 1.
  cbn [heap].
  destruct (obj_at (heap s1 ++ news) devices) as [[dm| | |]|] eqn:Hobj;
    try reflexivity.
  by destruct (Hdev dm).
Qed.

(** X12: the tasks setup creates follow the order of [PLATFORM_LOOKUP]:
    the forwarded platforms are a sublist of its keys; for an empty
    devices dictionary nothing is forwarded. *)
Theorem async_setup_entry_forward_order s hass entry dd od ls sd news devices dm :
  setup_ready s hass entry dd od ls sd →
  let s1 := prepared s hass entry dd od ls sd in
  startSession s1 (VRef (length (heap s))) (VRef (length (heap s) + 1))
    = (news, Ok devices) →
  obj_at (heap s1 ++ news) devices = Some (ODict dm) →
  ∃ created,
    trace (async_setup_entry hass entry s).2
      = trace s ++ forward_tasks entry created ∧
    created `sublist_of` PLATFORM_LOOKUP.*1 ∧
    (dm = ∅ → created = []).
Proof.
  intros Hready s1 Hcall Hdev.
  rewrite (async_setup_entry_prepared _ _ _ _ _ _ _ Hready). fold s1.
  rewrite (bootstrap_return _ _ _ _ _ _ Hcall Hdev).
  eexists. split; [reflexivity|]. split.
  - apply forwarded_sublist.
  - intros ->. apply forwarded_empty.
Qed.

Lemma async_unload_entry_true s hass entry hd ls sd session :
  async_unload_platforms s entry PLATFORMS = Ok true →
  obj_at (heap s) (hass_data hass) = Some (ODict hd) →
  hd !! DOMAIN = Some (VRef ls) →
  heap s !! ls = Some (ODict sd) →
  sd !! entry_id entry = Some session →
  async_unload_entry hass entry s =
    (Ok true,
     {| heap := <[ls := ODict (delete (entry_id entry) sd)]> (heap s);
        module_globals := module_globals s; trace := trace s |}).
Proof.
  intros Hhelper Hh Hdom Hs Hstored.
  unfold async_unload_entry.
  rewrite bind_run. unfold call_async_unload_platforms. rewrite Hhelper.
  rewrite bind_run, bind_run, (getitem_run _ _ _ hd (VRef ls)) by done.
  by rewrite bind_run, (pop_run _ _ _ sd session) by done.
Qed.

(** X7: unloading an entry for which no session is stored, when the host
    has unloaded the platforms: [pop] raises [KeyError] for the entry's
    id and the state is left as it was. *)
Theorem async_unload_entry_missing_session s hass entry hd ls sd :
  async_unload_platforms s entry PLATFORMS = Ok true →
  obj_at (heap s) (hass_data hass) = Some (ODict hd) →
  hd !! DOMAIN = Some (VRef ls) →
  heap s !! ls = Some (ODict sd) →
  sd !! entry_id entry = None →
  async_unload_entry hass entry s
    = (Raise (KeyError (VStr (entry_id entry))), s).
Proof.
  intros Hhelper Hh Hdom Hs Hmissing.
  unfold async_unload_entry.
  rewrite bind_run. unfold call_async_unload_platforms. rewrite Hhelper.
  rewrite bind_run, bind_run, (getitem_run _ _ _ hd (VRef ls)) by done.
  rewrite bind_run. unfold pop. cbn [obj_at]. by rewrite Hs, Hmissing.
Qed.

(** X8: setting up an entry and then unloading it, when the host unloads
    the platforms, leaves the dictionary of sessions without the entry:
    as it was before when the entry had no session.  The session object
    itself still exists. *)
Theorem async_setup_entry_then_unload s hass entry dd od ls sd :
  setup_ready s hass entry dd od ls sd →
  hass_data hass ≠ VRef ls →
  let s1 := (async_setup_entry hass entry s).2 in
  async_unload_platforms s1 entry PLATFORMS = Ok true →
  ∃ s2,
    async_unload_entry hass entry s1 = (Ok true, s2) ∧
    heap s2 !! ls = Some (ODict (delete (entry_id entry) sd)) ∧
    (sd !! entry_id entry = None → heap s2 !! ls = Some (ODict sd)) ∧
    heap s2 !! length (heap s)
      = Some (OHive (async_get_clientsession s hass)).
Proof.
  intros Hready Hne s1 Hhelper.
  pose proof (prepared_sessions s hass entry dd od ls sd) as Hsessions.
  assert (∃ news, heap s1 = heap (prepared s hass entry dd od ls sd) ++ news)
    as [news Hheap].
  { subst s1. rewrite (async_setup_entry_prepared _ _ _ _ _ _ _ Hready).
    destruct (bootstrap_heap s entry (prepared s hass entry dd od ls sd))
      as (news & Hh & _). by exists news. }
  specialize (Hsessions news Hready). rewrite <- Hheap in Hsessions.
  destruct Hready as [_ _ (hd & Hh & Hdom & Hs)].
  pose proof (lookup_lt_Some _ _ _ Hs) as Hlt.
  assert (obj_at (heap s1) (hass_data hass) = Some (ODict hd)) as Hh1.
  { rewrite Hheap. unfold prepared; cbn [heap].
    apply obj_at_app_l. by apply obj_at_insert_app_ne. }
  eexists. split.
  { apply (async_unload_entry_true s1 hass entry hd ls
             (<[entry_id entry := VRef (length (heap s))]> sd)
             (VRef (length (heap s)))); try done.
    apply lookup_insert_eq. }
  cbn [heap]. rewrite delete_insert_eq.
  assert (ls < length (heap s1)) as Hlt1
    by (by eapply lookup_lt_Some).
  split; [by apply list_lookup_insert_eq|].
  split.
  { intros Hnone. rewrite (delete_id _ _ Hnone).
    by apply list_lookup_insert_eq. }
  rewrite list_lookup_insert_ne by lia.
  rewrite Hheap. unfold prepared; cbn [heap].
  apply lookup_app_l_Some. by rewrite lookup_insert_app_length.
Qed.

End Entry_extra.

(** ** The table after loading *)

Lemma DEVICETYPE_loaded_kept s s' t table :
  DEVICETYPE_loaded s t table →
  module_globals s' = module_globals s →
  (∀ l o, heap s !! l = Some o →
          (l = t ∨ ∃ k, table !! k = Some (VRef l)) →
          heap s' !! l = Some o) →
  DEVICETYPE_loaded s' t table.
Proof.
  intros (Hg & Ht & Hrec) Hglobals Hkept. split; [by rewrite Hglobals|].
  split; [apply Hkept; [done|by left]|].
  intros k. specialize (Hrec k).
  destruct (DEVICETYPE_dict !! k); [|exact Hrec].
  destruct Hrec as (l & Hk & Hl). exists l. split; [exact Hk|].
  apply Hkept; [exact Hl|]. right. by exists k.
Qed.

(** X18: executing the module body from any state succeeds; it allocates
    one dictionary per record of the display and the table, 27 objects in
    all, after the objects that exist, binds the global name
    [DEVICETYPE] to the table and emits nothing. *)
Theorem module_load_establishes s :
  ∃ s' news,
    module_load s = (Ok tt, s') ∧
    DEVICETYPE_loaded s' (length (heap s) + 26)
                      (DEVICETYPE_table (length (heap s))) ∧
    heap s' = heap s ++ news ∧
    length news = 27 ∧
    module_globals s' =
      <["DEVICETYPE" := VRef (length (heap s) + 26)]> (module_globals s) ∧
    trace s' = trace s.
Proof.
  destruct (module_load_loaded s)
    as (s' & Hrun & Hloaded & Htrace & Hheap & Hglobals).
  exists s', (((λ kr, ODict (dict_display kr.2)) <$> DEVICETYPE) ++
              [ODict (DEVICETYPE_table (length (heap s)))]).
  split; [exact Hrun|]. split; [exact Hloaded|]. split; [exact Hheap|].
  split; [reflexivity|]. split; [exact Hglobals|exact Htrace].
Qed.

Lemma DEVICETYPE_dict_fields t r :
  DEVICETYPE_dict !! t = Some r → record_fields_ok r = true.
Proof.
  revert t r.
  change (map_Forall (λ _ r, record_fields_ok r = true) DEVICETYPE_dict).
  apply map_Forall_to_list, Forall_forall.
  assert (∀ l, forallb (λ kr : string * gmap string value,
                 record_fields_ok kr.2) l = true →
               ∀ kr, kr ∈ l →
                 uncurry (λ (_ : string) r, record_fields_ok r = true) kr)
    as Hlist.
  { induction l as [|[k r] l IH]; intros Hl kr Hin.
    - by apply elem_of_nil in Hin.
    - cbn in Hl. apply andb_true_iff in Hl as [Hr Hl].
      apply elem_of_cons in Hin as [-> | Hin]; [done | by apply IH]. }
  apply Hlist. vm_compute. reflexivity.
Qed.

(** X20: in a state in which the module is loaded, every entry of the
    table refers to a dictionary object whose keys are among [icon],
    [device_class], [state_class] and [unit]. *)
Theorem DEVICETYPE_records_fields s t table ty l :
  DEVICETYPE_loaded s t table →
  table !! ty = Some (VRef l) →
  ∃ r, heap s !! l = Some (ODict r) ∧
       DEVICETYPE_dict !! ty = Some r ∧
       ∀ k, is_Some (r !! k) → k ∈ DEVICETYPE_fields.
Proof.
  intros (_ & _ & Hrec) Hty. specialize (Hrec ty).
  destruct (DEVICETYPE_dict !! ty) as [r|] eqn:Hknown; [|congruence].
  destruct Hrec as (l' & Hl' & Hr).
  assert (l' = l) as -> by congruence.
  exists r. split; [exact Hr|]. split; [reflexivity|].
  intros k [v Hk].
  pose proof (DEVICETYPE_dict_fields ty r Hknown) as Hok.
  unfold record_fields_ok in Hok.
  rewrite forallb_forall in Hok.
  specialize (Hok (k, v)).
  assert (bool_decide (k ∈ DEVICETYPE_fields) = true) as Hin.
  { apply Hok. apply list_elem_of_In. by apply elem_of_map_to_list. }
  by apply bool_decide_eq_true in Hin.
Qed.

Section Table_extra.
Context `{Host}.

(** X19: once the module is loaded, none of its operations changes the
    binding of [DEVICETYPE], the table or a record, on any outcome,
    provided [hass.data] and the dictionary of sessions are objects other
    than the table and its records. *)
Theorem DEVICETYPE_kept s t table hass entry dd od ls sd lh :
  DEVICETYPE_loaded s t table →
  setup_ready s hass entry dd od ls sd →
  hass_data hass = VRef lh →
  lh ≠ t → (∀ k, table !! k ≠ Some (VRef lh)) →
  ls ≠ t → (∀ k, table !! k ≠ Some (VRef ls)) →
  (∀ config, DEVICETYPE_loaded (async_setup hass config s).2 t table) ∧
  DEVICETYPE_loaded (async_setup_entry hass entry s).2 t table ∧
  DEVICETYPE_loaded (async_unload_entry hass entry s).2 t table ∧
  (∀ session hive_device,
     DEVICETYPE_loaded (HiveEntity_init session hive_device s).2 t table).
Proof.
  intros Hloaded Hready Hdata Hlht Hlhrec Hlst Hlsrec.
  assert (∀ l, (l = t ∨ ∃ k, table !! k = Some (VRef l)) → l ≠ lh) as Hnlh.
  { intros l [->|[k Hk]] ->; [done|]. by apply (Hlhrec k). }
  assert (∀ l, (l = t ∨ ∃ k, table !! k = Some (VRef l)) → l ≠ ls) as Hnls.
  { intros l [->|[k Hk]] ->; [done|]. by apply (Hlsrec k). }
  split; [|split; [|split]].
  - intros config.
    pose proof Hready as [_ _ (hd & Hh & _ & _)].
    rewrite Hdata in Hh. cbn [obj_at] in Hh.
    rewrite (async_setup_start _ _ _ _ _ Hdata Hh).
    destruct (grows_async_setup_import config (reset_sessions s lh hd))
      as (news & evs & Hheap & Hglobals & _).
    apply (DEVICETYPE_loaded_kept s); [exact Hloaded|exact Hglobals|].
    intros l o Hl Hprot. rewrite Hheap. unfold reset_sessions; cbn [heap].
    apply lookup_app_l_Some, lookup_app_l_Some.
    rewrite list_lookup_insert_ne; [exact Hl|].
    intros ->. by apply (Hnlh l).
  - rewrite (async_setup_entry_prepared _ _ _ _ _ _ _ Hready).
    destruct (bootstrap_heap s entry (prepared s hass entry dd od ls sd))
      as (news & Hheap & Hglobals).
    apply (DEVICETYPE_loaded_kept s); [exact Hloaded|exact Hglobals|].
    intros l o Hl Hprot. rewrite Hheap.
    rewrite prepared_kept; [exact Hl|by apply Hnls|by eapply lookup_lt_Some].
  - destruct Hready as [_ _ (hd & Hh & Hdom & Hs)].
    destruct (async_unload_platforms s entry PLATFORMS) as [[|]|e]
      eqn:Hhelper.
    + destruct (sd !! entry_id entry) as [session|] eqn:Hstored.
      * rewrite (async_unload_entry_true s hass entry hd ls sd session)
          by done.
        apply (DEVICETYPE_loaded_kept s); [exact Hloaded|reflexivity|].
        intros l o Hl Hprot. cbn [snd heap].
        rewrite list_lookup_insert_ne; [exact Hl|].
        intros ->. by apply (Hnls l).
      * unfold async_unload_entry.
        rewrite bind_run. unfold call_async_unload_platforms.
        rewrite Hhelper.
        rewrite bind_run, bind_run, (getitem_run _ _ _ hd (VRef ls)) by done.
        rewrite bind_run. unfold pop. cbn [obj_at].
        rewrite Hs, Hstored. exact Hloaded.
    + unfold async_unload_entry.
      rewrite bind_run. unfold call_async_unload_platforms.
      rewrite Hhelper. exact Hloaded.
    + unfold async_unload_entry.
      rewrite bind_run. unfold call_async_unload_platforms.
      rewrite Hhelper. exact Hloaded.
  - intros session hive_device.
    destruct (grows_HiveEntity_init session hive_device s)
      as (news & evs & Hheap & Hglobals & _).
    apply (DEVICETYPE_loaded_kept s); [exact Hloaded|exact Hglobals|].
    intros l o Hl _. rewrite Hheap. by apply lookup_app_l_Some.
Qed.

End Table_extra.

(** ** Runs of the further properties on the demonstration hosts *)

Lemma async_setup_resets_sessions_witness :
  obj_at (heap (async_setup demo_hass VNone demo_loaded_state).2) (VRef 4)
    = Some (ODict ∅) ∧
  heap (async_setup demo_hass VNone demo_loaded_state).2 !! 0
    = Some (ODict (<["hive" := VRef 4]> (dict_display [("hive", VRef 1)]))).
Proof.
  destruct (async_setup_resets_sessions demo_hass VNone demo_loaded_state 0
              (dict_display [("hive", VRef 1)]) eq_refl eq_refl)
    as (_ & Hdata & Hsessions & _).
  split; [exact Hsessions | exact Hdata].
Defined.

Lemma async_setup_not_configured_witness :
  async_setup demo_hass (VRef 1) (demo_config_state false [])
    = (Ok true, reset_sessions (demo_config_state false []) 0 ∅).
Proof.
  apply (async_setup_not_configured demo_hass (VRef 1)
           (demo_config_state false []) 0 ∅
           (dict_display [("logger", VNone)]) eq_refl eq_refl).
  - discriminate.
  - reflexivity.
  - vm_compute; reflexivity.
Defined.

Lemma async_setup_already_imported_witness :
  @async_setup demo_host_imported demo_hass (VRef 1)
    (demo_config_state true [("username", VStr "bob")])
  = (Ok true,
     @reset_sessions demo_host_imported
       (demo_config_state true [("username", VStr "bob")]) 0 ∅).
Proof.
  apply (@async_setup_already_imported demo_host_imported demo_hass (VRef 1)
           (demo_config_state true [("username", VStr "bob")]) 0 ∅
           (dict_display [("logger", VNone); ("hive", VRef 2)]) (VRef 2)
           eq_refl eq_refl).
  - discriminate.
  - reflexivity.
  - vm_compute; reflexivity.
  - discriminate.
Defined.

Lemma async_setup_starts_import_witness :
  trace (async_setup demo_hass (VRef 1)
           (demo_config_state true [("username", VStr "bob");
                                    ("password", VStr "secret");
                                    ("scan_interval", VInt 2)])).2
    = [CreateTask (FlowInit "hive" (VRef 4) (VRef 5))] ∧
  heap (async_setup demo_hass (VRef 1)
          (demo_config_state true [("username", VStr "bob");
                                   ("password", VStr "secret");
                                   ("scan_interval", VInt 2)])).2 !! 5
    = Some (ODict (<["password" := VStr "secret"]>
                     {["username" := VStr "bob"]})).
Proof.
  rewrite (async_setup_starts_import demo_hass (VRef 1)
             (demo_config_state true [("username", VStr "bob");
                                      ("password", VStr "secret");
                                      ("scan_interval", VInt 2)]) 0 ∅
             (dict_display [("logger", VNone); ("hive", VRef 2)]) (VRef 2)
             (dict_display [("username", VStr "bob");
                            ("password", VStr "secret");
                            ("scan_interval", VInt 2)])
             (VStr "bob") (VStr "secret") eq_refl eq_refl).
  - split; reflexivity.
  - discriminate.
  - reflexivity.
  - vm_compute; reflexivity.
  - discriminate.
  - reflexivity.
  - vm_compute; reflexivity.
  - vm_compute; reflexivity.
  - reflexivity.
Defined.

Lemma async_setup_missing_username_witness :
  ∃ s', async_setup demo_hass (VRef 1)
          (demo_config_state true [("password", VStr "secret")])
          = (Raise (KeyError (VStr "username")), s') ∧
        trace s' = [].
Proof.
  destruct (async_setup_missing_username demo_hass (VRef 1)
              (demo_config_state true [("password", VStr "secret")]) 0 ∅
              (dict_display [("logger", VNone); ("hive", VRef 2)]) (VRef 2)
              (dict_display [("password", VStr "secret")])
              eq_refl eq_refl)
    as (s' & Hrun & Htrace & _).
  - discriminate.
  - reflexivity.
  - vm_compute; reflexivity.
  - discriminate.
  - reflexivity.
  - vm_compute; reflexivity.
  - reflexivity.
  - exists s'. split; [exact Hrun | exact Htrace].
Defined.

Lemma async_setup_then_ready_witness :
  setup_ready (async_setup demo_hass VNone (demo_state "bob" [])).2
    demo_hass demo_entry
    (dict_display [("username", VStr "bob"); ("password", VStr "secret")])
    (dict_display []) 4 ∅.
Proof.
  apply (async_setup_then_ready demo_hass VNone demo_entry
           (demo_state "bob" []) 0 (dict_display [("hive", VRef 1)])
           (dict_display [("username", VStr "bob"); ("password", VStr "secret")])
           (dict_display []) eq_refl eq_refl).
  - discriminate.
  - discriminate.
  - reflexivity.
  - reflexivity.
Defined.

Lemma async_unload_entry_missing_session_witness :
  async_unload_entry demo_hass demo_entry (demo_state "bob" [])
    = (Raise (KeyError (VStr "entry1")), demo_state "bob" []).
Proof.
  apply (async_unload_entry_missing_session (demo_state "bob" []) demo_hass
           demo_entry (dict_display [("hive", VRef 1)]) 1 ∅).
  - vm_compute; reflexivity.
  - reflexivity.
  - vm_compute; reflexivity.
  - reflexivity.
  - reflexivity.
Defined.

Lemma async_setup_entry_then_unload_witness :
  ∃ s2,
    async_unload_entry demo_hass demo_entry
      (async_setup_entry demo_hass demo_entry (demo_state "bob" [])).2
      = (Ok true, s2) ∧
    heap s2 !! 1 = Some (ODict ∅).
Proof.
  destruct (async_setup_entry_then_unload (demo_state "bob" []) demo_hass
              demo_entry _ _ 1 ∅ (demo_ready _ _))
    as (s2 & Hrun & _ & Hback & _).
  - discriminate.
  - vm_compute; reflexivity.
  - exists s2. split; [exact Hrun|]. apply Hback. reflexivity.
Defined.

Lemma demo_ready_imported :
  @setup_ready demo_host_imported (demo_state "bob" []) demo_hass demo_entry
    (dict_display [("username", VStr "bob"); ("password", VStr "secret")])
    (dict_display []) 1 ∅.
Proof.
  split; [reflexivity | reflexivity |].
  exists (dict_display [("hive", VRef 1)]).
  split; [reflexivity | split; [vm_compute; reflexivity | reflexivity]].
Qed.

Lemma async_setup_entry_bad_devices_witness :
  (@async_setup_entry demo_host_imported demo_hass demo_entry
     (demo_state "bob" [])).1 = Raise AttributeError.
Proof.
  rewrite (@async_setup_entry_bad_devices demo_host_imported
             (demo_state "bob" []) demo_hass demo_entry _ _ 1 ∅ [] VNone
             demo_ready_imported).
  - reflexivity.
  - reflexivity.
  - intros dm. discriminate.
  - discriminate.
Defined.

Lemma async_setup_entry_failure_trace_witness :
  trace (async_setup_entry demo_hass demo_entry (demo_state "offline" [])).2
    = [LogError "Could not connect to the internet: %s"
         (HTTPException "Service Unavailable")] ∧
  trace (async_setup_entry demo_hass demo_entry (demo_state "expired" [])).2
    = [].
Proof.
  split.
  - rewrite (async_setup_entry_failure_trace (demo_state "offline" [])
               demo_hass demo_entry _ _ 1 ∅ []
               (HTTPException "Service Unavailable") (demo_ready _ _));
      [reflexivity | vm_compute; reflexivity].
  - rewrite (async_setup_entry_failure_trace (demo_state "expired" [])
               demo_hass demo_entry _ _ 1 ∅ [] HiveReauthRequired
               (demo_ready _ _));
      [reflexivity | vm_compute; reflexivity].
Defined.


Lemma async_setup_entry_forward_order_witness :
  ∃ created,
    trace (async_setup_entry demo_hass demo_entry (demo_state "bob" [])).2
      = forward_tasks demo_entry created ∧
    created `sublist_of` ["binary_sensor"; "climate"; "light"; "sensor";
                          "switch"; "water_heater"].
Proof.
  destruct (async_setup_entry_forward_order (demo_state "bob" []) demo_hass
              demo_entry _ _ 1 ∅
              [ODict (dict_display [("hiveName", VStr "Lamp")]);
               OList [VRef 9]; OList [];
               ODict (dict_display [("light", VRef 10); ("switch", VRef 11)])]
              (VRef 12)
              (dict_display [("light", VRef 10); ("switch", VRef 11)])
              (demo_ready _ _))
    as (created & Htrace & Hsub & _).
  - vm_compute; reflexivity.
  - vm_compute; reflexivity.
  - exists created. split; [exact Htrace | exact Hsub].
Defined.

Lemma demo_device_known :
  is_Some (DEVICETYPE_dict !! "contactsensor").
Proof. vm_compute. by eexists. Qed.

Lemma HiveEntity_init_requires_witness :
  ∃ d f t,
    has_required_keys (demo_device_state (VStr "contactsensor") (VStr "dev1"))
      (VRef 28) d f ∧
    f_hiveType f = VStr t ∧
    is_Some (DEVICETYPE_dict !! t) ∧
    hashable (heap (demo_device_state (VStr "contactsensor") (VStr "dev1")))
      (f_device_id f) = true.
Proof.
  destruct (HiveEntity_init_run
              (demo_device_state (VStr "contactsensor") (VStr "dev1"))
              VNone (VRef 28) _ _ "contactsensor" 26 (DEVICETYPE_table 0)
              (dict_display [("device_class", VBinarySensorDeviceClass OPENING)])
              (demo_device_loaded _ _) (demo_device_keys _ _) eq_refl)
    as (l & _ & _ & Hrun).
  - vm_compute; reflexivity.
  - vm_compute; reflexivity.
  - exact (HiveEntity_init_requires VNone (VRef 28)
             (demo_device_state (VStr "contactsensor") (VStr "dev1"))
             26 (DEVICETYPE_table 0) _ _ (demo_device_loaded _ _) Hrun).
Defined.

Lemma HiveEntity_init_twice_witness :
  ∃ e1 e2 s1 s2,
    HiveEntity_init VNone (VRef 28)
      (demo_device_state (VStr "contactsensor") (VStr "dev1")) = (Ok e1, s1) ∧
    HiveEntity_init VNone (VRef 28) s1 = (Ok e2, s2) ∧
    _attr_device_class e1 = _attr_device_class e2 ∧
    attributes e1 ≠ attributes e2.
Proof.
  destruct (HiveEntity_init_twice VNone (VRef 28)
              (demo_device_state (VStr "contactsensor") (VStr "dev1"))
              26 (DEVICETYPE_table 0) _ _ "contactsensor"
              (demo_device_loaded _ _) (demo_device_keys _ _) eq_refl
              demo_device_known)
    as (e1 & e2 & s1 & s2 & Hrun1 & Hrun2 & Hclass & _ & Hattrs & _).
  - vm_compute; reflexivity.
  - intros l. discriminate.
  - exists e1, e2, s1, s2. repeat split; assumption.
Defined.

Lemma HiveEntity_init_unknown_type_witness :
  ∃ e,
    HiveEntity_init VNone (VRef 28)
      (demo_device_state (VStr "thermostat") (VStr "dev1"))
      = (Raise e, demo_device_state (VStr "thermostat") (VStr "dev1")) ∧
    (e = TypeError ∨ e = KeyError (VStr "thermostat")).
Proof.
  apply (HiveEntity_init_unknown_type
           (demo_device_state (VStr "thermostat") (VStr "dev1"))
           VNone (VRef 28) _ _ 26 (DEVICETYPE_table 0)
           (demo_device_loaded _ _) (demo_device_keys _ _)).
  intros t [= <-]. vm_compute; reflexivity.
Defined.

Lemma HiveEntity_init_unhashable_id_witness :
  HiveEntity_init VNone (VRef 28)
    (demo_device_state (VStr "contactsensor") (VRef 27))
    = (Raise TypeError, demo_device_state (VStr "contactsensor") (VRef 27)).
Proof.
  apply (HiveEntity_init_unhashable_id
           (demo_device_state (VStr "contactsensor") (VRef 27))
           VNone (VRef 28) _ _ "contactsensor" 26 (DEVICETYPE_table 0)
           (demo_device_loaded _ _) (demo_device_keys _ _) eq_refl
           demo_device_known).
  vm_compute; reflexivity.
Defined.

Lemma demo_full_loaded : DEVICETYPE_loaded demo_full_state 26 (DEVICETYPE_table 0).
Proof.
  destruct (module_load_loaded empty_state) as (s' & Hrun & Hloaded & _).
  assert (s' = (module_load empty_state).2) as -> by (by rewrite Hrun).
  unfold demo_full_state.
  exact (DEVICETYPE_loaded_app (module_load empty_state).2
           (length (heap empty_state) + length DEVICETYPE)
           (DEVICETYPE_table (length (heap empty_state))) _ Hloaded).
Qed.

Lemma demo_full_ready :
  setup_ready demo_full_state demo_full_hass demo_full_entry
    (dict_display [("username", VStr "bob")]) ∅ 28 ∅.
Proof.
  split; [vm_compute; reflexivity | vm_compute; reflexivity |].
  exists (dict_display [("hive", VRef 28)]).
  split; [vm_compute; reflexivity|].
  split; vm_compute; reflexivity.
Qed.

(** The table holds references to objects 0 to 25 only. *)
Lemma demo_table_refs k l :
  DEVICETYPE_table 0 !! k = Some (VRef l) → l < 26.
Proof.
  revert k l.
  assert (map_Forall (λ _ v, match v with
                             | VRef l => Nat.ltb l 26
                             | _ => true
                             end = true) (DEVICETYPE_table 0)) as Hall.
  { apply map_Forall_to_list, Forall_forall.
    assert (∀ l, forallb (λ kv : string * value,
                   match kv.2 with VRef l => Nat.ltb l 26 | _ => true end) l = true →
                 ∀ kv, kv ∈ l →
                   uncurry (λ (_ : string) v,
                     match v with VRef l => Nat.ltb l 26 | _ => true end = true) kv)
      as Hlist.
    { induction l as [|[k v] l IH]; intros Hl kv Hin.
      - by apply elem_of_nil in Hin.
      - cbn in Hl. apply andb_true_iff in Hl as [Hv Hl].
        apply elem_of_cons in Hin as [-> | Hin]; [done | by apply IH]. }
    apply Hlist. vm_compute. reflexivity. }
  intros k l Hk. specialize (Hall k (VRef l) Hk). cbn in Hall.
  by apply Nat.ltb_lt.
Qed.

Lemma DEVICETYPE_kept_witness :
  DEVICETYPE_loaded
    (async_setup_entry demo_full_hass demo_full_entry demo_full_state).2
    26 (DEVICETYPE_table 0) ∧
  DEVICETYPE_loaded
    (async_setup demo_full_hass VNone demo_full_state).2
    26 (DEVICETYPE_table 0).
Proof.
  destruct (DEVICETYPE_kept demo_full_state 26 (DEVICETYPE_table 0)
              demo_full_hass demo_full_entry _ _ 28 ∅ 27
              demo_full_loaded demo_full_ready eq_refl)
    as (Hsetup & Hentry & _).
  - lia.
  - intros k Hk. apply demo_table_refs in Hk. lia.
  - lia.
  - intros k Hk. apply demo_table_refs in Hk. lia.
  - split; [exact Hentry | exact (Hsetup VNone)].
Defined.

Lemma DEVICETYPE_records_fields_witness :
  ∃ r, heap demo_full_state !! 6 = Some (ODict r) ∧
       DEVICETYPE_dict !! "Heating_Current_Temperature" = Some r ∧
       ∀ k, is_Some (r !! k) → k ∈ DEVICETYPE_fields.
Proof.
  apply (DEVICETYPE_records_fields demo_full_state 26 (DEVICETYPE_table 0)
           "Heating_Current_Temperature" 6 demo_full_loaded).
  vm_compute; reflexivity.
Defined.
